(** * The dynamic cache of the object store

    A shallow embedding of [internal/objectstore/dynamic_cache.go]: the
    access check, the resolution of the informer of a key, and the three
    operations [List], [Get] and [Watch] of [DynamicCache].

    The Go code runs against a cluster: a client, an authorization
    endpoint, a shared informer factory and the informers' caches.  What
    these collaborators answer is data of the model (records of functions),
    so every definition below can be evaluated on a concrete cluster.  What
    the code changes (the seen set, the informers of the factory, the
    access reviews sent, the span annotations, ...) is threaded through an
    explicit [State].

    [dc.mu] is not modelled: the operations are run one after the other,
    which is what the mutex guarantees for the part of
    [DynamicCache.currentInformer] it protects.  A call that waits for the
    mutex behind a call that never returns is therefore outside the model:
    nothing below is about when calls that run at the same time block each
    other. *)

From stdpp Require Import base option strings list gmap fin_maps.
From Stdlib Require Import ZArith Ascii String.

Local Open Scope string_scope.
Local Open Scope Z_scope.

(** ** apimachinery: names of types, label sets, selectors *)

Module schema.

Record GroupKind := mkGroupKind {
  gk_Group : string;
  gk_Kind : string;
}.

Record GroupVersionKind := mkGroupVersionKind {
  gvk_Group : string;
  gvk_Version : string;
  gvk_Kind : string;
}.

Record GroupVersionResource := mkGroupVersionResource {
  gvr_Group : string;
  gvr_Version : string;
  gvr_Resource : string;
}.

(** [gvk.GroupKind()] *)
Definition GroupKind_of (gvk : GroupVersionKind) : GroupKind :=
  mkGroupKind (gvk_Group gvk) (gvk_Kind gvk).

#[global] Instance GroupVersionKind_eq_dec : EqDecision GroupVersionKind.
Proof. solve_decision. Defined.

#[global] Instance GroupVersionResource_eq_dec : EqDecision GroupVersionResource.
Proof. solve_decision. Defined.

#[global] Program Instance GroupVersionKind_countable : Countable GroupVersionKind :=
  inj_countable'
    (fun x => (gvk_Group x, gvk_Version x, gvk_Kind x))
    (fun t => mkGroupVersionKind t.1.1 t.1.2 t.2) _.
Next Obligation. by intros []. Qed.

#[global] Program Instance GroupVersionResource_countable : Countable GroupVersionResource :=
  inj_countable'
    (fun x => (gvr_Group x, gvr_Version x, gvr_Resource x))
    (fun t => mkGroupVersionResource t.1.1 t.1.2 t.2) _.
Next Obligation. by intros []. Qed.

(** [strings.Count(s, "/")] *)
Fixpoint count_slash (s : string) : nat :=
  match s with
  | EmptyString => 0%nat
  | String c rest =>
      if Ascii.eqb c "/"%char then S (count_slash rest) else count_slash rest
  end.

(** [s[:i]] and [s[i+1:]] for the first ["/"] of [s]. *)
Fixpoint cut_slash (s : string) : string * string :=
  match s with
  | EmptyString => (EmptyString, EmptyString)
  | String c rest =>
      if Ascii.eqb c "/"%char then (EmptyString, rest)
      else let '(g, v) := cut_slash rest in (String c g, v)
  end.

(** [schema.FromAPIVersionAndKind]: ["apps/v1"] is group [apps], version
    [v1]; a version alone is the core group; an apiVersion with more than
    one ["/"] does not parse and leaves group and version empty. *)
Definition FromAPIVersionAndKind (apiVersion kind : string) : GroupVersionKind :=
  if bool_decide (apiVersion = "") || bool_decide (apiVersion = "/")
  then mkGroupVersionKind "" "" kind
  else match count_slash apiVersion with
       | 0%nat => mkGroupVersionKind "" apiVersion kind
       | 1%nat => let '(g, v) := cut_slash apiVersion in mkGroupVersionKind g v kind
       | _ => mkGroupVersionKind "" "" kind
       end.

End schema.

Module validation.

(** The character classes of the formats of apimachinery's
    [util/validation]. *)
Definition between (lo hi c : ascii) : bool :=
  (nat_of_ascii lo <=? nat_of_ascii c)%nat && (nat_of_ascii c <=? nat_of_ascii hi)%nat.

Definition is_lower (c : ascii) : bool := between "a" "z" c.
Definition is_upper (c : ascii) : bool := between "A" "Z" c.
Definition is_digit (c : ascii) : bool := between "0" "9" c.

(** The classes A-Z a-z 0-9, and the same with "-", "_" and ".". *)
Definition is_alnum (c : ascii) : bool := is_lower c || is_upper c || is_digit c.
Definition is_name_char (c : ascii) : bool :=
  is_alnum c || Ascii.eqb c "-" || Ascii.eqb c "_" || Ascii.eqb c ".".

(** The classes a-z 0-9, and the same with "-". *)
Definition is_dns_alnum (c : ascii) : bool := is_lower c || is_digit c.
Definition is_dns_char (c : ascii) : bool := is_dns_alnum c || Ascii.eqb c "-".

(** A non-empty string whose first and last characters are in [ends] and
    whose characters are all in [inner]. *)
Definition framed (ends inner : ascii -> bool) (s : string) : bool :=
  match list_ascii_of_string s with
  | [] => false
  | c :: cs => ends c && ends (List.last cs c) && forallb inner (c :: cs)
  end.

(** [strings.Split(s, sep)] for a separator of one character. *)
Fixpoint split (sep : ascii) (s : string) : list string :=
  match s with
  | EmptyString => [EmptyString]
  | String c rest =>
      if Ascii.eqb c sep then EmptyString :: split sep rest
      else match split sep rest with
           | [] => [String c EmptyString]
           | part :: parts => String c part :: parts
           end
  end.

(** [qualifiedNameFmt] matched against the whole string: the string starts
    and ends with a character of A-Z, a-z, 0-9, with characters of these
    and of "-", "_", "." between them. *)
Definition qualifiedNameRegexp (s : string) : bool := framed is_alnum is_name_char s.

(** [IsValidLabelValue] finds no error: at most 63 bytes, and empty or of
    the format of a qualified name. *)
Definition IsValidLabelValue (value : string) : bool :=
  (String.length value <=? 63)%nat &&
  (bool_decide (value = EmptyString) || qualifiedNameRegexp value).

(** [IsDNS1123Subdomain] finds no error: at most 253 bytes, and labels
    separated by dots, each starting and ending with a character of a-z,
    0-9, with characters of these and "-" between them. *)
Definition IsDNS1123Subdomain (value : string) : bool :=
  (String.length value <=? 253)%nat &&
  forallb (framed is_dns_alnum is_dns_char) (split "." value).

(** [IsQualifiedName] finds no error: a name of 1 to 63 bytes of the
    format above, after an optional prefix, a DNS subdomain, and a
    slash. *)
Definition IsQualifiedName (value : string) : bool :=
  let name_ok name :=
    negb (bool_decide (name = EmptyString)) && (String.length name <=? 63)%nat &&
    qualifiedNameRegexp name in
  match split "/" value with
  | [name] => name_ok name
  | [prefix; name] =>
      negb (bool_decide (prefix = EmptyString)) && IsDNS1123Subdomain prefix &&
      name_ok name
  | _ => false
  end.

End validation.

Module kLabels.

(** [labels.Set] is [map[string]string], here [gmap string string]. *)

(** A selector built by [Everything()] or by [Set.AsSelector()]: the
    equalities it requires. *)
Record Selector := mkSelector { requirements : gmap string string }.

Definition Everything : Selector := mkSelector ∅.

(** [NewRequirement(label, selection.Equals, []string{value})] returns no
    error: the key is a qualified name and the value a label value. *)
Definition NewRequirement_ok (label value : string) : bool :=
  validation.IsQualifiedName label && validation.IsValidLabelValue value.

(** [ls.AsSelector()], that is [SelectorFromSet(ls)]: one equality for each
    label of the set; a set with a label that makes no requirement gives
    the empty selector, which matches everything, as the empty set does. *)
Definition AsSelector (ls : gmap string string) : Selector :=
  if forallb (fun kv => NewRequirement_ok kv.1 kv.2) (map_to_list ls)
  then mkSelector ls
  else mkSelector ∅.

(** [selector.Matches(labels)]: every required label is present with the
    required value. *)
Definition Matches (sel : Selector) (ls : gmap string string) : bool :=
  forallb (fun kv => bool_decide (ls !! kv.1 = Some kv.2))
          (map_to_list (requirements sel)).

End kLabels.

(** [metav1.NamespaceAll] *)
Definition NamespaceAll : string := "".

(** ** Keys *)

Module objectstoreutil.

(** Modelled from the spec: [objectstoreutil.Key] is declared in
    [pkg/objectstoreutil], which is not among the sources.  The fields are
    the ones [dynamic_cache.go] reads; the spec's resource type descriptor
    is {group, version, kind, optional namespace, optional name, optional
    label selector}, whose identity is (group, version, kind): group and
    version are the two halves of [APIVersion]. *)
Record Key := mkKey {
  Namespace : string;
  APIVersion : string;
  Kind : string;
  Name : string;
  Selector : option (gmap string string);
}.

(** Modelled from the spec: [Key.GroupVersionKind], of the same missing
    package; the identity of a descriptor is its (group, version, kind),
    read off [APIVersion] and [Kind] and nothing else. *)
Definition Key_GroupVersionKind (key : Key) : schema.GroupVersionKind :=
  schema.FromAPIVersionAndKind (APIVersion key) (Kind key).

End objectstoreutil.

Import schema objectstoreutil.

(** ** Errors *)

(** Arguments of a [Wrapf] format ([%v] and [%s] of a key, [%T] of an
    object); the message is kept unformatted. *)
Inductive wrap_arg :=
| arg_key (key : Key)
| arg_type (go_type : string).

Inductive StatusReason :=
| StatusReasonUnknown
| StatusReasonNotFound
| StatusReasonForbidden
| StatusReasonTimeout
| StatusReasonInternalError.

(** The dynamic types an [error] takes in this file. *)
Inductive error :=
| fundamental (msg : string)
    (* errors.New(msg) *)
| withMessage (cause : error) (format : string) (args : list wrap_arg)
    (* errors.Wrap(cause, format), errors.Wrapf(cause, format, args...) *)
| StatusError (reason : StatusReason) (msg : string)
    (* a *kerrors.StatusError, what the API machinery and the listers return *)
| stop (err : error).
    (* retry.stop{err} *)

Module errors.
Definition New (msg : string) : error := fundamental msg.
Definition Wrap (err : error) (msg : string) : error := withMessage err msg [].
Definition Wrapf (err : error) (format : string) (args : list wrap_arg) : error :=
  withMessage err format args.
End errors.

Module kerrors.

(** [ReasonForError]: the reason of an API status error, unknown for any
    other error. *)
Definition ReasonForError (err : error) : StatusReason :=
  match err with
  | StatusError reason _ => reason
  | _ => StatusReasonUnknown
  end.

Definition IsNotFound (err : error) : bool :=
  match ReasonForError err with
  | StatusReasonNotFound => true
  | _ => false
  end.

(** [kerrors.NewNotFound]: what a lister returns for an absent name. *)
Definition NewNotFound (resource name : string) : error :=
  let quote := String (ascii_of_nat 34) EmptyString in
  StatusError StatusReasonNotFound
    (resource ++ " " ++ quote ++ name ++ quote ++ " not found").

End kerrors.

(** ** Objects, informers and the client *)

(** The content of an [unstructured.Unstructured]. *)
Definition Document := list (string * string).

Record Unstructured := mkUnstructured { Object : Document }.

(** A [kruntime.Object] of an informer's cache, described by what the code
    asks of it. *)
Record RuntimeObject := mkRuntimeObject {
  go_type : string;
    (* the %T of the object *)
  accessor_Labels : gmap string string + error;
    (* meta.NewAccessor().Labels(object) *)
  ToUnstructured : Document + error;
    (* kruntime.DefaultUnstructuredConverter.ToUnstructured(object) *)
}.

(** [time.Duration], in nanoseconds. *)
Definition Duration := Z.
Definition time_Second : Duration := 1000000000.

(** A [<-chan struct{}] nobody sends on: a receiver only sees whether
    it is closed.  [Some t] is closed from tick [t] on, [None] is never
    closed, which is also how a nil channel behaves. *)
Definition chan := option nat.

(** [context.Background().Done()] is the nil channel. *)
Definition context_Background_Done : chan := None.

(** An informer of the shared factory: [HasSynced] turns true at tick
    [Some t] or never; the lister answers the [n]-th read of the cache,
    for the whole cluster (namespace [None]) or one namespace. *)
Record GenericInformer := mkGenericInformer {
  informer_resource : GroupVersionResource;
  HasSynced : option nat;
  cache_Get : option string -> string -> nat -> RuntimeObject + error;
  cache_List : option string -> kLabels.Selector -> nat -> list RuntimeObject + error;
}.

(** [informer.Lister()] and [informer.Lister().ByNamespace(ns)]; both are a
    [lister] and a [getter]. *)
Record GenericLister := mkGenericLister {
  lister_informer : GenericInformer;
  lister_namespace : option string;
}.

Definition Lister (informer : GenericInformer) : GenericLister :=
  mkGenericLister informer None.

Definition ByNamespace (l : GenericLister) (namespace : string) : GenericLister :=
  mkGenericLister (lister_informer l) (Some namespace).

(** [l.Get(name)] and [l.List(selector)], at the [n]-th read of the cache. *)
Definition lister_Get (l : GenericLister) (name : string) (n : nat)
    : RuntimeObject + error :=
  cache_Get (lister_informer l) (lister_namespace l) name n.

Definition lister_List (l : GenericLister) (selector : kLabels.Selector) (n : nat)
    : list RuntimeObject + error :=
  cache_List (lister_informer l) (lister_namespace l) selector n.

(** The lister [List] and [Get] pick for a key: the informer's own when the
    key has no namespace, the one of the key's namespace otherwise. *)
Definition lister_for (informer : GenericInformer) (key : Key) : GenericLister :=
  if bool_decide (Namespace key = "") then Lister informer
  else ByNamespace (Lister informer) (Namespace key).

(** [kcache.WaitForCacheSync(stopCh, hasSynced)]: [Some true] once the
    cache has synced, [Some false] when [stopCh] is closed first, [None]
    when neither ever happens and the call does not return. *)
Definition WaitForCacheSync (stopCh : chan) (hasSynced : option nat) : option bool :=
  match hasSynced, stopCh with
  | Some t, Some c => Some (bool_decide (t < c)%nat)
  | Some _, None => Some true
  | None, Some _ => Some false
  | None, None => None
  end.

Record ResourceAttributes := mkResourceAttributes {
  ra_Namespace : string;
  ra_Verb : string;
  ra_Group : string;
  ra_Version : string;
  ra_Resource : string;
}.

Record SelfSubjectAccessReview := mkSelfSubjectAccessReview {
  Spec_ResourceAttributes : ResourceAttributes;
  Status_Allowed : bool;
}.

(** [kubernetes.Interface], as far as [AuthorizationV1()] goes. *)
Record kubernetes_Interface := mkKubernetes {
  SelfSubjectAccessReviews_Create :
    SelfSubjectAccessReview -> SelfSubjectAccessReview + error;
}.

(** [cluster.ClientInterface]. [KubernetesClient] returns a Go pair: the
    client, nil or not, and the error, nil or not. *)
Record ClientInterface := mkClient {
  Resource : GroupKind -> GroupVersionResource + error;
  KubernetesClient : option kubernetes_Interface * option error;
}.

(** [dynamicinformer.DynamicSharedInformerFactory]: the informer it builds
    for a resource it has none for yet. *)
Record DynamicSharedInformerFactory := mkFactory {
  NewInformer : GroupVersionResource -> GenericInformer;
}.

(** A [kcache.ResourceEventHandler], by name. *)
Definition ResourceEventHandler := string.

(** [trace.Attribute] *)
Inductive Attribute :=
| StringAttribute (key value : string)
| Int64Attribute (key : string) (value : Z).

(** The fields of [DynamicCache] that are set once. *)
Record DynamicCache := mkDynamicCache {
  factory : option DynamicSharedInformerFactory;
  client : option ClientInterface;
  stopCh : chan;
}.

(** ** State *)

(** [seenGVKs] is the field of [DynamicCache]; [informers] and
    [startedInformers] are the factory's; the rest records what the
    operations did to their collaborators, in order. *)
Record State := mkState {
  seenGVKs : gmap GroupVersionKind bool;
  informers : gmap GroupVersionResource GenericInformer;
  startedInformers : gmap GroupVersionResource chan;
  reviews : list SelfSubjectAccessReview;
    (* SelfSubjectAccessReviews().Create calls *)
  syncWaits : list GroupVersionResource;
    (* WaitForCacheSync calls *)
  cacheReads : nat;
    (* reads of an informer's cache *)
  slept : list Duration;
    (* time.Sleep calls *)
  annotations : list (list Attribute * string);
    (* span.Annotate calls *)
  handlers : list (GroupVersionResource * ResourceEventHandler);
    (* AddEventHandler calls *)
}.

Definition set_seenGVKs (f : gmap GroupVersionKind bool -> gmap GroupVersionKind bool)
    (s : State) : State :=
  mkState (f (seenGVKs s)) (informers s) (startedInformers s) (reviews s)
          (syncWaits s) (cacheReads s) (slept s) (annotations s) (handlers s).

Definition set_informers
    (f : gmap GroupVersionResource GenericInformer -> gmap GroupVersionResource GenericInformer)
    (s : State) : State :=
  mkState (seenGVKs s) (f (informers s)) (startedInformers s) (reviews s)
          (syncWaits s) (cacheReads s) (slept s) (annotations s) (handlers s).

Definition set_startedInformers
    (f : gmap GroupVersionResource chan -> gmap GroupVersionResource chan)
    (s : State) : State :=
  mkState (seenGVKs s) (informers s) (f (startedInformers s)) (reviews s)
          (syncWaits s) (cacheReads s) (slept s) (annotations s) (handlers s).

Definition log_review (sar : SelfSubjectAccessReview) (s : State) : State :=
  mkState (seenGVKs s) (informers s) (startedInformers s) (reviews s ++ [sar])
          (syncWaits s) (cacheReads s) (slept s) (annotations s) (handlers s).

Definition log_syncWait (gvr : GroupVersionResource) (s : State) : State :=
  mkState (seenGVKs s) (informers s) (startedInformers s) (reviews s)
          (syncWaits s ++ [gvr]) (cacheReads s) (slept s) (annotations s) (handlers s).

Definition log_cacheRead (s : State) : State :=
  mkState (seenGVKs s) (informers s) (startedInformers s) (reviews s)
          (syncWaits s) (S (cacheReads s)) (slept s) (annotations s) (handlers s).

Definition time_Sleep (d : Duration) (s : State) : State :=
  mkState (seenGVKs s) (informers s) (startedInformers s) (reviews s)
          (syncWaits s) (cacheReads s) (slept s ++ [d]) (annotations s) (handlers s).

Definition span_Annotate (attributes : list Attribute) (message : string) (s : State) : State :=
  mkState (seenGVKs s) (informers s) (startedInformers s) (reviews s)
          (syncWaits s) (cacheReads s) (slept s) (annotations s ++ [(attributes, message)])
          (handlers s).

Definition log_handler (gvr : GroupVersionResource) (h : ResourceEventHandler) (s : State) : State :=
  mkState (seenGVKs s) (informers s) (startedInformers s) (reviews s)
          (syncWaits s) (cacheReads s) (slept s) (annotations s) (handlers s ++ [(gvr, h)]).

(** The state of a cache that [NewDynamicCache] has just built. *)
Definition new_state : State := mkState ∅ ∅ ∅ [] [] 0%nat [] [] [].

(** ** Outcomes *)

(** How a call ends: it returns a value and a nil error, it returns a
    non-nil error, it panics, or it never returns. *)
Inductive outcome (A : Type) :=
| Ret (a : A)
| Err (err : error)
| Panics
| Blocks.

Arguments Ret {A} a.
Arguments Err {A} err.
Arguments Panics {A}.
Arguments Blocks {A}.

Definition M (A : Type) : Type := State -> outcome A * State.

#[global] Instance M_ret : MRet M := fun A a s => (Ret a, s).

#[global] Instance M_bind : MBind M := fun A B k m s =>
  match m s with
  | (Ret a, s') => k a s'
  | (Err err, s') => (Err err, s')
  | (Panics, s') => (Panics, s')
  | (Blocks, s') => (Blocks, s')
  end.

Definition fail {A} (err : error) : M A := fun s => (Err err, s).
Definition panic {A} : M A := fun s => (Panics, s).
Definition modify (f : State -> State) : M unit := fun s => (Ret tt, f s).
Definition gets {A} (f : State -> A) : M A := fun s => (Ret (f s), s).

(** [if err != nil { return nil, wrap(err) }] around a call. *)
Definition wrapping {A} (wrap : error -> error) (m : M A) : M A := fun s =>
  match m s with
  | (Err err, s') => (Err (wrap err), s')
  | r => r
  end.

(** ** Retrying *)

Module retry.

(** Modelled from the spec: package [internal/util/retry] is not among the
    sources; [Get] calls [retry.Retry(3, time.Second, fn)] and, inside
    [fn], [retry.Stop(err)].  [Stop] wraps an error in a type of the
    package.  The spec describes the retry of [Get] as bounded, up to 3
    attempts with a fixed delay between two attempts, and the errors that
    [Get] passes to [Stop], the transient ones, as retried: the mark does
    not end the retrying. *)
Definition Stop (err : error) : error := stop err.

Section Retry.

Context {St : Type} (sleep_for : Duration -> St -> St).

(** Modelled from the spec: one attempt of the bounded retry of the missing
    package, [more] being the number of attempts left after it.  Nil from
    [fn] ends the retrying with nil; an error, whatever it is, is retried
    after the fixed delay while attempts are left, and returned when none
    is. *)
Fixpoint attempt (more : nat) (sleep : Duration)
    (fn : St -> option error * St) (s : St) : option error * St :=
  let '(err, s1) := fn s in
  match err with
  | None => (None, s1)
  | Some e =>
      match more with
      | O => (Some e, s1)
      | S more' => attempt more' sleep fn (sleep_for sleep s1)
      end
  end.

(** Modelled from the spec: [retry.Retry(attempts, sleep, fn)] of the
    missing package, up to [attempts] attempts, [sleep] between two. *)
Definition Retry (attempts : nat) (sleep : Duration)
    (fn : St -> option error * St) : St -> option error * St :=
  attempt (attempts - 1) sleep fn.

End Retry.

End retry.

(** ** The access check *)

(** [fmt.Sprintf("%t", b)] *)
Definition fmt_t (b : bool) : string := if b then "true" else "false".

(** The review the closure [checkVerb] of [checkAccess] builds for a verb:
    [resourceAttributes], with its [Namespace] assigned when the key has
    one, inside [sar]. *)
Definition checkVerb_sar (key : Key) (gvr : GroupVersionResource) (verb : string)
    : SelfSubjectAccessReview :=
  let resourceAttributes :=
    mkResourceAttributes "" verb (gvr_Group gvr) (gvr_Version gvr) (gvr_Resource gvr) in
  let resourceAttributes :=
    if bool_decide (Namespace key ≠ "")
    then mkResourceAttributes NamespaceAll
           (ra_Verb resourceAttributes) (ra_Group resourceAttributes)
           (ra_Version resourceAttributes) (ra_Resource resourceAttributes)
    else resourceAttributes in
  mkSelfSubjectAccessReview resourceAttributes false.

(** The closure [checkVerb] of [checkAccess]. *)
Definition checkVerb (authClient : kubernetes_Interface) (key : Key)
    (gvr : GroupVersionResource) (verb : string) : M bool := fun s =>
  let sar := checkVerb_sar key gvr verb in
  match SelfSubjectAccessReviews_Create authClient sar with
  | inr _ => (Ret false, log_review sar s)
  | inl response =>
      (Ret (if Status_Allowed response then true else false), log_review sar s)
  end.

(** [for _, v := range verbs { mustHaveVerbs[v] = checkVerb(v) }] *)
Fixpoint range_verbs (checkVerb : string -> M bool) (verbs : list string)
    (mustHaveVerbs : gmap string bool) : M (gmap string bool) :=
  match verbs with
  | [] => mret mustHaveVerbs
  | v :: rest =>
      b ← checkVerb v;
      range_verbs checkVerb rest (<[v := b]> mustHaveVerbs)
  end.

(** [mustHaveVerbs[v]]: false for a key the map does not have. *)
Definition index (mustHaveVerbs : gmap string bool) (v : string) : bool :=
  default false (mustHaveVerbs !! v).

(** [fmt.Sprintf("get: %t, list: %t, watch: %t", get, list, watch)] *)
Definition currentAccess (get list watch : bool) : string :=
  "get: " ++ fmt_t get ++ ", list: " ++ fmt_t list ++ ", watch: " ++ fmt_t watch.

(** [fmt.Sprintf("requires cluster scoped get/list/watch access, have %s",
    currentAccess)] *)
Definition access_text (get list watch : bool) : string :=
  "requires cluster scoped get/list/watch access, have " ++ currentAccess get list watch.

Definition access_error (mustHaveVerbs : gmap string bool) : error :=
  errors.New (access_text (index mustHaveVerbs "get") (index mustHaveVerbs "list")
                          (index mustHaveVerbs "watch")).

(** [for _, v := range mustHaveVerbs { if v == false { return ... } }],
    over the entries in the order the runtime picks. *)
Fixpoint range_mustHaveVerbs (entries : list (string * bool))
    (mustHaveVerbs : gmap string bool) : option error :=
  match entries with
  | [] => None
  | (_, v) :: rest =>
      if bool_decide (v = false) then Some (access_error mustHaveVerbs)
      else range_mustHaveVerbs rest mustHaveVerbs
  end.

Definition checkAccess (client : ClientInterface) (key : Key)
    (gvr : GroupVersionResource) : M unit :=
  let '(k8sClient, err) := KubernetesClient client in
  (* if err != nil { errors.Wrap(err, "client kubernetes") }: the wrapped
     error is built and dropped, the function goes on *)
  let _ := match err with
           | Some e => Some (errors.Wrap e "client kubernetes")
           | None => None
           end in
  match k8sClient with
  | None => panic (* k8sClient.AuthorizationV1() on a nil interface *)
  | Some authClient =>
      let verbs := ["get"; "list"; "watch"] in
      let mustHaveVerbs : gmap string bool :=
        <["get" := false]> (<["list" := false]> (<["watch" := false]> ∅)) in
      mustHaveVerbs ← range_verbs (checkVerb authClient key gvr) verbs mustHaveVerbs;
      match range_mustHaveVerbs (map_to_list mustHaveVerbs) mustHaveVerbs with
      | Some e => fail e
      | None => mret tt
      end
  end.

(** ** Resolving the informer of a key *)

(** [factory.ForResource(gvr)]: the informer the factory holds for [gvr],
    built and kept on the first request. *)
Definition ForResource (f : DynamicSharedInformerFactory)
    (gvr : GroupVersionResource) : M GenericInformer := fun s =>
  match informers s !! gvr with
  | Some informer => (Ret informer, s)
  | None =>
      let informer := NewInformer f gvr in
      (Ret informer, set_informers (insert gvr informer) s)
  end.

(** [factory.Start(stopCh)]: runs the informers that are not running yet. *)
Definition Start (f : DynamicSharedInformerFactory) (stopCh : chan) : M unit :=
  modify (fun s =>
    set_startedInformers
      (fun started => started ∪ ((fun _ => stopCh) <$> informers s)) s).

Definition currentInformer (key : Key) (client : option ClientInterface)
    (factory : option DynamicSharedInformerFactory) (stopCh : chan)
    : M GenericInformer :=
  match factory with
  | None => fail (errors.New "dynamic shared informer factory is nil")
  | Some factory =>
  match client with
  | None => fail (errors.New "cluster client is nil")
  | Some client =>
      let gvk := Key_GroupVersionKind key in
      match Resource client (GroupKind_of gvk) with
      | inr err => fail (errors.Wrap err "client resource")
      | inl gvr =>
          wrapping (fun err => errors.Wrap err ("check access: " ++ gvr_Resource gvr))
                   (checkAccess client key gvr);;
          informer ← ForResource factory gvr;
          Start factory stopCh;;
          mret informer
      end
  end
  end.

Definition DynamicCache_currentInformer (dc : DynamicCache) (key : Key)
    : M GenericInformer :=
  let gvk := Key_GroupVersionKind key in
  informer ← currentInformer key (client dc) (factory dc) (stopCh dc);
  (* dc.mu.Lock(); defer dc.mu.Unlock() *)
  ((fun s =>
    match seenGVKs s !! gvk with
    | Some _ => (Ret informer, s)
    | None =>
        let ctx_Done := context_Background_Done in
        let s := log_syncWait (informer_resource informer) s in
        match WaitForCacheSync ctx_Done (HasSynced informer) with
        | None => (Blocks, s)
        | Some false => (Err (errors.New "shutting down"), s)
        | Some true => (Ret informer, set_seenGVKs (insert gvk true) s)
        end
    end) : M GenericInformer).

(** ** The operations of the cache *)

(** The first annotation of the span of [List]. *)
Definition List_span (key : Key) : State -> State :=
  span_Annotate
    [StringAttribute "namespace" (Namespace key);
     StringAttribute "apiVersion" (APIVersion key);
     StringAttribute "kind" (Kind key)] "list key".

(** The conversion loop of [List]; the first object that does not convert
    ends the call. *)
Fixpoint List_convert (objects : list RuntimeObject) : M (list Unstructured) :=
  match objects with
  | [] => mret []
  | obj :: rest =>
      match ToUnstructured obj with
      | inr err =>
          fail (errors.Wrapf err "converting %T to unstructured" [arg_type (go_type obj)])
      | inl u =>
          list ← List_convert rest;
          mret (mkUnstructured u :: list)
      end
  end.

Definition List (dc : DynamicCache) (key : Key) : M (list Unstructured) :=
  modify (List_span key);;
  informer ← wrapping
    (fun err => errors.Wrapf err "retrieving informer for %v" [arg_key key])
    (DynamicCache_currentInformer dc key);
  let l := lister_for informer key in
  let selector :=
    match Selector key with
    | Some set => kLabels.AsSelector set
    | None => kLabels.Everything
    end in
  n ← gets cacheReads;
  modify log_cacheRead;;
  match lister_List l selector n with
  | inr err => fail (errors.Wrapf err "listing %v" [arg_key key])
  | inl objects => List_convert objects
  end.

(** [int64] arithmetic wraps around. *)
Definition int64 (z : Z) : Z := (z + 2 ^ 63) mod 2 ^ 64 - 2 ^ 63.

(** The variables of [Get] that the function passed to [retry.Retry]
    assigns: [object], [retryCount], and the [err] of [Get] itself. *)
Record GetVars := mkGetVars {
  object : option RuntimeObject;
  err : option error;
  retryCount : Z;
}.

(** The function [Get] passes to [retry.Retry]. *)
Definition Get_func (g : GenericLister) (key : Key)
    : GetVars * State -> option error * (GetVars * State) := fun '(vars, s) =>
  let r := lister_Get g (Name key) (cacheReads s) in
  let s := log_cacheRead s in
  match r with
  | inr e =>
      let vars := mkGetVars None (Some e) (retryCount vars) in
      if negb (kerrors.IsNotFound e)
      then (Some (retry.Stop (errors.Wrap e "lister Get")),
            (mkGetVars (object vars) (err vars) (int64 (retryCount vars + 1)), s))
      else (Some e, (vars, s))
  | inl o => (None, (mkGetVars (Some o) None (retryCount vars), s))
  end.

(** [time.Sleep] as [retry.Retry] sees it from inside [Get]. *)
Definition Get_sleep (d : Duration) (vs : GetVars * State) : GetVars * State :=
  (vs.1, time_Sleep d vs.2).

(** Lines 264 to 295 of [Get]: the fetch under [retry.Retry] and the
    annotation of the span.  The result is [retryErr] and the variables as
    the function left them. *)
Definition Get_fetch (g : GenericLister) (key : Key) : M (option error * GetVars) := fun s =>
  let '(retryErr, (vars, s)) :=
    retry.Retry Get_sleep 3 time_Second (Get_func g key) (mkGetVars None None 0, s) in
  let s :=
    if bool_decide (retryCount vars > 0)
    then span_Annotate [Int64Attribute "retryCount" (retryCount vars)] "get retried" s
    else s in
  (Ret (retryErr, vars), s).

(** [meta.NewAccessor().Labels(object)] for an [object] that may be nil:
    nil does not implement the accessor's interface. *)
Definition meta_Labels (object : option RuntimeObject) : gmap string string + error :=
  match object with
  | None => inr (errors.New "object does not implement the Object interfaces")
  | Some o => accessor_Labels o
  end.

(** Lines 297 to 315 of [Get]: the selector is verified and the object
    converted.  The converter dereferences [object], nil or not. *)
Definition Get_verify (key : Key) (object : option RuntimeObject) : M (option Unstructured) :=
  match Selector key with
  | Some set =>
      match meta_Labels object with
      | inr _ => fail (errors.New "retrieving labels")
      | inl m =>
          let labels := m in
          let selector := kLabels.AsSelector set in
          if negb (kLabels.Matches selector labels)
          then fail (errors.New "object found but filtered by selector")
          else mret tt
      end
  | None => mret tt
  end;;
  match object with
  | None => panic
  | Some o =>
      match ToUnstructured o with
      | inr err =>
          fail (errors.Wrapf err "converting %T to unstructured" [arg_type (go_type o)])
      | inl u => mret (Some (mkUnstructured u))
      end
  end.

(** The first annotation of the span of [Get]. *)
Definition Get_span (key : Key) : State -> State :=
  span_Annotate
    [StringAttribute "namespace" (Namespace key);
     StringAttribute "apiVersion" (APIVersion key);
     StringAttribute "kind" (Kind key);
     StringAttribute "name" (Name key)] "get key".

(** [Get] returns a pointer and an error; [Ret None] is the pair of a nil
    pointer and a nil error. *)
Definition Get (dc : DynamicCache) (key : Key) : M (option Unstructured) :=
  modify (Get_span key);;
  informer ← wrapping
    (fun err => errors.Wrapf err "retrieving informer for %v" [arg_key key])
    (DynamicCache_currentInformer dc key);
  let g := lister_for informer key in
  fetched ← Get_fetch g key;
  let '(retryErr, vars) := fetched in
  match retryErr with
  | Some _ =>
      (* return nil, err *)
      match err vars with
      | Some e => fail e
      | None => mret None
      end
  | None => Get_verify key (object vars)
  end.

Definition Watch (dc : DynamicCache) (key : Key) (handler : ResourceEventHandler) : M unit :=
  informer ← wrapping
    (fun err => errors.Wrapf err "retrieving informer for %s" [arg_key key])
    (DynamicCache_currentInformer dc key);
  modify (log_handler (informer_resource informer) handler).

(** A call of one of the three operations, and its result. *)
Inductive call :=
| call_List (key : Key)
| call_Get (key : Key)
| call_Watch (key : Key) (handler : ResourceEventHandler).

Definition call_key (c : call) : Key :=
  match c with
  | call_List key | call_Get key | call_Watch key _ => key
  end.

Inductive response :=
| listed (objects : list Unstructured)
| got (object : option Unstructured)
| watching.

Definition run (dc : DynamicCache) (c : call) : M response :=
  match c with
  | call_List key => objects ← List dc key; mret (listed objects)
  | call_Get key => object ← Get dc key; mret (got object)
  | call_Watch key handler => Watch dc key handler;; mret watching
  end.

(** The state after a list of calls, one after the other. *)
Definition run_all (dc : DynamicCache) (calls : list call) (s : State) : State :=
  fold_left (fun s c => (run dc c s).2) calls s.


(** ** Notions the statements use *)

(** What the authorization endpoint makes of a verb: allowed only when the
    review comes back with [Status.Allowed]. *)
Definition allowed (authClient : kubernetes_Interface) (key : Key)
    (gvr : GroupVersionResource) (verb : string) : bool :=
  match SelfSubjectAccessReviews_Create authClient (checkVerb_sar key gvr verb) with
  | inl response => Status_Allowed response
  | inr _ => false
  end.

Definition grants (authClient : kubernetes_Interface) (key : Key)
    (gvr : GroupVersionResource) : bool :=
  allowed authClient key gvr "get" && allowed authClient key gvr "list" &&
  allowed authClient key gvr "watch".

(** The three reviews one access check sends. *)
Definition sent (key : Key) (gvr : GroupVersionResource) : list SelfSubjectAccessReview :=
  [checkVerb_sar key gvr "get"; checkVerb_sar key gvr "list"; checkVerb_sar key gvr "watch"].

Definition log_reviews (sars : list SelfSubjectAccessReview) (s : State) : State :=
  fold_left (fun s sar => log_review sar s) sars s.

(** The state in which an operation resolves its informer: after the first
    annotation of its span, if it has one. *)
Definition span_of (c : call) : State -> State :=
  match c with
  | call_List key => List_span key
  | call_Get key => Get_span key
  | call_Watch _ _ => fun s => s
  end.

(** The part of the state that resolving an informer reads and writes. *)
Definition resolution (s : State) :=
  (seenGVKs s, informers s, startedInformers s, reviews s, syncWaits s).

(** [s] after a fetch of [reads] reads, the given sleeps and annotations. *)
Definition after_fetch (s : State) (reads : nat) (sleeps : list Duration)
    (notes : list (list Attribute * string)) : State :=
  mkState (seenGVKs s) (informers s) (startedInformers s) (reviews s) (syncWaits s)
          (reads + cacheReads s) (slept s ++ sleeps) (annotations s ++ notes) (handlers s).



(** What the function of [Get] leaves in its variables after the lister
    answered with the error [e]. *)
Definition failed_vars (vars : GetVars) (e : error) : GetVars :=
  mkGetVars None (Some e)
    (if kerrors.IsNotFound e then retryCount vars else int64 (retryCount vars + 1)).

(** [not_found_until g key n j]: the first [j] reads of the name of [key]
    through [g], from read [n] on, answer not found. *)
Definition not_found_until (g : GenericLister) (key : Key) (n j : nat) : Prop :=
  forall i, (i < j)%nat ->
    exists e, lister_Get g (Name key) (i + n) = inr e /\ kerrors.IsNotFound e = true.

(** ** A small cluster to run the operations on *)

Module cluster.

Definition pods : GroupVersionResource := mkGroupVersionResource "" "v1" "pods".

Definition resource_of (gk : GroupKind) : GroupVersionResource + error :=
  if bool_decide (gk_Kind gk = "Pod") then inl pods
  else inr (errors.New "no matches for kind").

(** An authorization endpoint that allows the listed verbs, in every
    namespace and across them. *)
Definition granting (verbs : list string) : kubernetes_Interface :=
  mkKubernetes (fun sar =>
    inl (mkSelfSubjectAccessReview (Spec_ResourceAttributes sar)
           (bool_decide (ra_Verb (Spec_ResourceAttributes sar) ∈ verbs)))).

(** One that allows everything inside one namespace and nothing across
    namespaces. *)
Definition granting_within (namespace : string) : kubernetes_Interface :=
  mkKubernetes (fun sar =>
    inl (mkSelfSubjectAccessReview (Spec_ResourceAttributes sar)
           (bool_decide (ra_Namespace (Spec_ResourceAttributes sar) = namespace)))).

(** One that cannot be reached. *)
Definition unreachable : kubernetes_Interface :=
  mkKubernetes (fun _ => inr (errors.New "connection refused")).

Definition all_verbs : list string := ["get"; "list"; "watch"].

Definition nginx : RuntimeObject :=
  mkRuntimeObject "*unstructured.Unstructured"
    (inl {[ "app" := "nginx" ]})
    (inl [("kind", "Pod"); ("name", "nginx")]).

Definition absent : error := kerrors.NewNotFound "pods" "nginx".


(** An informer whose cache answers the [n]-th read with [reads n]. *)
Definition informer_reading (synced : option nat) (reads : nat -> RuntimeObject + error)
    (gvr : GroupVersionResource) : GenericInformer :=
  mkGenericInformer gvr synced
    (fun _ _ n => reads n)
    (fun _ _ n => match reads n with inl o => inl [o] | inr e => inr e end).

Definition cache_with (k8s : kubernetes_Interface) (synced : option nat)
    (reads : nat -> RuntimeObject + error) (stopCh : chan) : DynamicCache :=
  mkDynamicCache
    (Some (mkFactory (informer_reading synced reads)))
    (Some (mkClient resource_of (Some k8s, None)))
    stopCh.

(** A cache whose client has no Kubernetes client to give. *)
Definition cache_without_kubernetes : DynamicCache :=
  mkDynamicCache
    (Some (mkFactory (informer_reading (Some 0%nat) (fun _ => inl nginx))))
    (Some (mkClient resource_of (None, Some (errors.New "no kubeconfig"))))
    None.

Definition pod_key : Key := mkKey "default" "v1" "Pod" "nginx" None.

Definition pod_key_selecting (app : string) : Key :=
  mkKey "default" "v1" "Pod" "nginx" (Some {[ "app" := app ]}).

End cluster.

(** ** Building the cache *)

(** [defaultInformerResync] *)
Definition defaultInformerResync : Duration := time_Second * 180.

Section NewDynamicCache.

(** [dynamic.Interface] and [dynamicinformer.NewDynamicSharedInformerFactory]
    belong to client-go; the file only passes the one to the other. *)
Context {dynamic_Interface : Type}.
Context (NewDynamicSharedInformerFactory :
           option dynamic_Interface -> Duration -> DynamicSharedInformerFactory).

(** [cluster.ClientInterface] with [DynamicClient], which only the
    construction of the cache calls; [operations] is the part of the
    client the operations use. *)
Record cluster_Client := mkClusterClient {
  operations : ClientInterface;
  DynamicClient : option dynamic_Interface * option error;
}.

(** What a call of an [initFactoryFunc] gives: [Ret factory] is a factory,
    nil or not, with a nil error; [Err err] is a non-nil error, whatever
    comes with it. *)
Definition initDynamicSharedInformerFactory (client : option cluster_Client)
    : outcome (option DynamicSharedInformerFactory) :=
  match client with
  | None => Panics (* client.DynamicClient() on a nil interface *)
  | Some client =>
      let '(dynamicClient, err) := DynamicClient client in
      match err with
      | Some err => Err err
      | None =>
          let factory := NewDynamicSharedInformerFactory dynamicClient defaultInformerResync in
          Ret (Some factory)
      end
  end.

(** The struct [DynamicCache] with all its fields, as [NewDynamicCache] and
    the options see it.  [c_seenGVKs] is a map that has been made. *)
Record DynamicCache_struct := mkDynamicCache_struct {
  c_initFactoryFunc :
    option (option cluster_Client -> outcome (option DynamicSharedInformerFactory));
  c_factory : option DynamicSharedInformerFactory;
  c_client : option cluster_Client;
  c_stopCh : chan;
  c_seenGVKs : gmap GroupVersionKind bool;
}.

(** [DynamicCacheOpt], an option that returns. *)
Definition DynamicCacheOpt := DynamicCache_struct -> DynamicCache_struct.

Definition NewDynamicCache (client : option cluster_Client) (stopCh : chan)
    (options : list DynamicCacheOpt) : outcome DynamicCache_struct :=
  let c := mkDynamicCache_struct (Some initDynamicSharedInformerFactory) None
             client stopCh ∅ in
  let c := fold_left (fun c option => option c) options c in
  match c_initFactoryFunc c with
  | None => Panics (* the call of a nil func *)
  | Some initFactoryFunc =>
      match initFactoryFunc client with
      | Err err => Err (errors.Wrap err "initialize dynamic shared informer factory")
      | Ret factory =>
          Ret (mkDynamicCache_struct (c_initFactoryFunc c) factory (c_client c)
                 (c_stopCh c) (c_seenGVKs c))
      | Panics => Panics
      | Blocks => Blocks
      end
  end.

(** The cache as the operations use it, and the state it starts in: the
    seen set of the struct, a factory without informers, nothing done. *)
Definition cache_of (c : DynamicCache_struct) : DynamicCache :=
  mkDynamicCache (c_factory c) (operations <$> c_client c) (c_stopCh c).

Definition state_of (c : DynamicCache_struct) : State :=
  mkState (c_seenGVKs c) ∅ ∅ [] [] 0%nat [] [] [].

End NewDynamicCache.

(** ** More notions the statements use *)

(** The selector [List] hands to the lister. *)
Definition List_selector (key : Key) : kLabels.Selector :=
  match Selector key with
  | Some set => kLabels.AsSelector set
  | None => kLabels.Everything
  end.

(** The format under which an operation wraps the error of the
    resolution. *)
Definition retrieving_format (c : call) : string :=
  match c with
  | call_Watch _ _ => "retrieving informer for %s"
  | _ => "retrieving informer for %v"
  end.

(** The informers the factory holds are the ones it has started. *)
Definition started_all (s : State) : Prop :=
  forall gvr, is_Some (informers s !! gvr) <-> is_Some (startedInformers s !! gvr).

(** The four ways [DynamicCache.currentInformer] ends. *)
Inductive resolved (dc : DynamicCache) (key : Key) (s : State)
    : outcome GenericInformer * State → Prop :=
| resolved_not o s1 :
    currentInformer key (client dc) (factory dc) (stopCh dc) s = (o, s1) →
    (∀ informer, o ≠ Ret informer) →
    resolved dc key s (o, s1)
| resolved_seen informer s1 :
    currentInformer key (client dc) (factory dc) (stopCh dc) s = (Ret informer, s1) →
    is_Some (seenGVKs s !! Key_GroupVersionKind key) →
    resolved dc key s (Ret informer, s1)
| resolved_synced informer s1 t :
    currentInformer key (client dc) (factory dc) (stopCh dc) s = (Ret informer, s1) →
    seenGVKs s !! Key_GroupVersionKind key = None →
    HasSynced informer = Some t →
    resolved dc key s
      (Ret informer,
       set_seenGVKs (insert (Key_GroupVersionKind key) true)
         (log_syncWait (informer_resource informer) s1))
| resolved_blocked informer s1 :
    currentInformer key (client dc) (factory dc) (stopCh dc) s = (Ret informer, s1) →
    seenGVKs s !! Key_GroupVersionKind key = None →
    HasSynced informer = None →
    resolved dc key s (Blocks, log_syncWait (informer_resource informer) s1).

(** ** More of the small cluster *)

Module samples.

(** A dynamic client is given by the informers one gets over it. *)
Definition factory_over (synced : option nat) (reads : nat -> RuntimeObject + error)
    (d : option unit) (resync : Duration) : DynamicSharedInformerFactory :=
  mkFactory (cluster.informer_reading synced reads).

Definition client_with (k8s : kubernetes_Interface) (dynamic : option unit * option error)
    : cluster_Client :=
  mkClusterClient (mkClient cluster.resource_of (Some k8s, None)) dynamic.

(** Options that install an [initFactoryFunc]. *)
Definition with_init
    (init : option (@cluster_Client unit) -> outcome (option DynamicSharedInformerFactory))
    : @DynamicCacheOpt unit :=
  fun c => mkDynamicCache_struct (Some init) (c_factory c) (c_client c) (c_stopCh c)
             (c_seenGVKs c).

Definition pod_in (namespace name : string) : Key := mkKey namespace "v1" "Pod" name None.


Definition unconvertible : RuntimeObject :=
  mkRuntimeObject "*v1.Pod" (inl ∅) (inr (errors.New "unsupported type")).

End samples.

(** * Properties *)

(** ** The access check *)

Lemma range_mustHaveVerbs_forallb entries m :
  range_mustHaveVerbs entries m =
  if forallb snd entries then None else Some (access_error m).
Proof.
  induction entries as [|[k v] rest IH]; [done|].
  simpl. by destruct v.
Qed.

Lemma forallb_Permutation {A} (f : A → bool) (l1 l2 : list A) :
  l1 ≡ₚ l2 → forallb f l1 = forallb f l2.
Proof.
  induction 1 as [|x l1 l2 _ IH|x y l|l1 l2 l3 _ IH1 _ IH2]; simpl.
  - done.
  - by rewrite IH.
  - by destruct (f x), (f y).
  - by rewrite IH1.
Qed.

Lemma range_mustHaveVerbs_order entries entries' m :
  entries ≡ₚ entries' →
  range_mustHaveVerbs entries m = range_mustHaveVerbs entries' m.
Proof.
  intros HP. rewrite !range_mustHaveVerbs_forallb.
  by rewrite (forallb_Permutation _ _ _ HP).
Qed.

Lemma checkVerb_run authClient key gvr verb s :
  checkVerb authClient key gvr verb s =
  (Ret (allowed authClient key gvr verb), log_review (checkVerb_sar key gvr verb) s).
Proof.
  unfold checkVerb, allowed.
  destruct (SelfSubjectAccessReviews_Create _ _) as [response|]; [|done].
  by destruct (Status_Allowed response).
Qed.

Lemma checkAccess_run client k8s e key gvr s :
  KubernetesClient client = (Some k8s, e) →
  checkAccess client key gvr s =
  (let get := allowed k8s key gvr "get" in
   let list := allowed k8s key gvr "list" in
   let watch := allowed k8s key gvr "watch" in
   if get && list && watch then Ret tt
   else Err (errors.New (access_text get list watch)),
   log_review (checkVerb_sar key gvr "watch")
     (log_review (checkVerb_sar key gvr "list")
        (log_review (checkVerb_sar key gvr "get") s))).
Proof.
  intros Hk. unfold checkAccess. rewrite Hk.
  cbn [range_verbs]. unfold mbind, M_bind.
  rewrite !checkVerb_run. cbn [mret M_ret].
  generalize (checkVerb_sar key gvr "get") (checkVerb_sar key gvr "list")
             (checkVerb_sar key gvr "watch").
  intros sg sl sw.
  destruct (allowed k8s key gvr "get"), (allowed k8s key gvr "list"),
           (allowed k8s key gvr "watch"); vm_compute; reflexivity.
Qed.

Lemma checkVerb_sar_all_namespaces key gvr verb :
  checkVerb_sar key gvr verb =
  mkSelfSubjectAccessReview
    (mkResourceAttributes NamespaceAll verb (gvr_Group gvr) (gvr_Version gvr) (gvr_Resource gvr))
    false.
Proof. unfold checkVerb_sar. by case_bool_decide. Qed.

Lemma checkVerb_sar_key key key' gvr verb :
  checkVerb_sar key gvr verb = checkVerb_sar key' gvr verb.
Proof. by rewrite !checkVerb_sar_all_namespaces. Qed.

Lemma allowed_key authClient key key' gvr verb :
  allowed authClient key gvr verb = allowed authClient key' gvr verb.
Proof. unfold allowed. by rewrite (checkVerb_sar_key key key'). Qed.

Lemma resolution_eq s t :
  resolution s = resolution t ↔
  seenGVKs s = seenGVKs t ∧ informers s = informers t ∧
  startedInformers s = startedInformers t ∧ reviews s = reviews t ∧
  syncWaits s = syncWaits t.
Proof.
  unfold resolution. split.
  - intros [= -> -> -> -> ->]. done.
  - intros (-> & -> & -> & -> & ->). done.
Qed.

Lemma Get_func_frame g key v s :
  resolution (Get_func g key (v, s)).2.2 = resolution s.
Proof.
  unfold Get_func.
  destruct (lister_Get g (Name key) (cacheReads s)) as [o|e]; [done|].
  by destruct (kerrors.IsNotFound e).
Qed.

Lemma attempt_frame g key d more v s :
  resolution (retry.attempt Get_sleep more d (Get_func g key) (v, s)).2.2 = resolution s.
Proof.
  revert v s. induction more as [|more IH]; intros v s; cbn [retry.attempt].
  - pose proof (Get_func_frame g key v s) as HF.
    destruct (Get_func g key (v, s)) as [[e|] [v1 s1]]; [|done].
    by destruct e.
  - pose proof (Get_func_frame g key v s) as HF.
    destruct (Get_func g key (v, s)) as [[e|] [v1 s1]]; [|done].
    destruct e; try done; unfold Get_sleep; cbn [fst snd]; by rewrite IH.
Qed.

Lemma Get_fetch_frame g key s :
  resolution (Get_fetch g key s).2 = resolution s ∧
  ∃ fetched, (Get_fetch g key s).1 = Ret fetched.
Proof.
  unfold Get_fetch, retry.Retry.
  pose proof (attempt_frame g key time_Second (3 - 1) (mkGetVars None None 0) s) as HF.
  destruct (retry.attempt _ _ _ _ _) as [retryErr [vars s1]]. simpl in *.
  split; [|eauto]. by case_bool_decide.
Qed.

Lemma Get_verify_state key object s : (Get_verify key object s).2 = s.
Proof.
  unfold Get_verify, mbind, M_bind.
  destruct (Selector key) as [set|]; simpl.
  - destruct (meta_Labels object) as [m|]; simpl; [|done].
    destruct (kLabels.Matches _ _); simpl; [|done].
    destruct object as [o|]; [|done]. by destruct (ToUnstructured o).
  - destruct object as [o|]; [|done]. by destruct (ToUnstructured o).
Qed.

Lemma List_convert_state objects s : (List_convert objects s).2 = s.
Proof.
  induction objects as [|obj rest IH]; [done|]. simpl.
  destruct (ToUnstructured obj); [|done].
  unfold mbind, M_bind. destruct (List_convert rest s) as [[]?]; simpl in *; done.
Qed.

Lemma span_of_resolution c s : resolution (span_of c s) = resolution s.
Proof. by destruct c. Qed.

Lemma run_resolution dc c s :
  resolution (run dc c s).2 =
  resolution (DynamicCache_currentInformer dc (call_key c) (span_of c s)).2.
Proof.
  destruct c as [key|key|key handler]; simpl.
  - unfold List, mbind, M_bind, wrapping, modify, gets; simpl.
    destruct (DynamicCache_currentInformer dc key (List_span key s)) as [[informer|e| |] s1];
      simpl; try done.
    destruct (lister_List _ _ _) as [objects|e]; simpl; [|done].
    pose proof (List_convert_state objects (log_cacheRead s1)) as HS.
    destruct (List_convert objects (log_cacheRead s1)) as [[] s2]; simpl in *; by subst.
  - unfold Get, mbind, M_bind, wrapping, modify; simpl.
    destruct (DynamicCache_currentInformer dc key (Get_span key s)) as [[informer|e| |] s1];
      simpl; try done.
    destruct (Get_fetch_frame (lister_for informer key) key s1) as [HF [[retryErr vars] HR]].
    destruct (Get_fetch (lister_for informer key) key s1) as [o s2]; simpl in *. subst o.
    destruct retryErr as [e|].
    + destruct (err vars); simpl; done.
    + pose proof (Get_verify_state key (object vars) s2) as HS.
      destruct (Get_verify key (object vars) s2) as [[] s3]; simpl in *; by subst.
  - unfold Watch, mbind, M_bind, wrapping, modify; simpl.
    by destruct (DynamicCache_currentInformer dc key s) as [[informer|e| |] s1].
Qed.

Lemma run_Ret dc c s r :
  (run dc c s).1 = Ret r →
  ∃ informer, (DynamicCache_currentInformer dc (call_key c) (span_of c s)).1 = Ret informer.
Proof.
  destruct c as [key|key|key handler]; simpl.
  - unfold List, mbind, M_bind, wrapping, modify; simpl.
    destruct (DynamicCache_currentInformer dc key (List_span key s)) as [[informer|e| |] s1];
      simpl; try done. eauto.
  - unfold Get, mbind, M_bind, wrapping, modify; simpl.
    destruct (DynamicCache_currentInformer dc key (Get_span key s)) as [[informer|e| |] s1];
      simpl; try done. eauto.
  - unfold Watch, mbind, M_bind, wrapping, modify; simpl.
    destruct (DynamicCache_currentInformer dc key s) as [[informer|e| |] s1];
      simpl; try done. eauto.
Qed.

(** ** Resolving the informer *)

Lemma currentInformer_run key f cl stopCh gvr k8s e s :
  Resource cl (GroupKind_of (Key_GroupVersionKind key)) = inl gvr →
  KubernetesClient cl = (Some k8s, e) →
  currentInformer key (Some cl) (Some f) stopCh s =
  if grants k8s key gvr
  then
    let informer := default (NewInformer f gvr) (informers s !! gvr) in
    (Ret informer,
     set_startedInformers
       (fun started => started ∪ ((fun _ => stopCh) <$> <[gvr := informer]> (informers s)))
       (set_informers (insert gvr informer) (log_reviews (sent key gvr) s)))
  else
    (Err (errors.Wrap
             (errors.New (access_text (allowed k8s key gvr "get")
                            (allowed k8s key gvr "list") (allowed k8s key gvr "watch")))
             ("check access: " ++ gvr_Resource gvr)),
     log_reviews (sent key gvr) s).
Proof.
  intros HR Hk. unfold currentInformer. rewrite HR.
  unfold mbind, M_bind, wrapping. rewrite (checkAccess_run _ _ _ _ _ _ Hk).
  unfold grants. cbn zeta.
  destruct (allowed k8s key gvr "get" && allowed k8s key gvr "list" &&
            allowed k8s key gvr "watch"); [|done].
  unfold ForResource, Start, modify, log_reviews, sent. cbn.
  destruct (informers s !! gvr) as [informer|] eqn:Hi; cbn.
  - unfold set_startedInformers, set_informers. cbn.
    by rewrite (insert_id _ _ _ Hi).
  - done.
Qed.

Lemma currentInformer_effect key client factory stopCh s :
  let r := currentInformer key client factory stopCh s in
  seenGVKs r.2 = seenGVKs s ∧ syncWaits r.2 = syncWaits s ∧
  cacheReads r.2 = cacheReads s ∧ slept r.2 = slept s ∧
  annotations r.2 = annotations s ∧ handlers r.2 = handlers s ∧
  r.1 ≠ Err (errors.New "shutting down") ∧ r.1 ≠ Blocks.
Proof.
  destruct factory as [f|]; [|done].
  destruct client as [cl|]; [|done].
  destruct (Resource cl (GroupKind_of (Key_GroupVersionKind key))) as [gvr|e0] eqn:HR.
  - destruct (KubernetesClient cl) as [[k8s|] e] eqn:Hk.
    + rewrite (currentInformer_run _ _ _ _ _ _ _ _ HR Hk).
      by destruct (grants k8s key gvr).
    + unfold currentInformer. rewrite HR. unfold checkAccess. rewrite Hk. done.
  - unfold currentInformer. rewrite HR. done.
Qed.

Lemma currentInformer_Ret key client factory stopCh s informer s1 :
  currentInformer key client factory stopCh s = (Ret informer, s1) →
  ∃ f cl gvr k8s e,
    factory = Some f ∧ client = Some cl ∧
    Resource cl (GroupKind_of (Key_GroupVersionKind key)) = inl gvr ∧
    KubernetesClient cl = (Some k8s, e) ∧ grants k8s key gvr = true ∧
    informer = default (NewInformer f gvr) (informers s !! gvr) ∧
    s1 = set_startedInformers
           (fun started => started ∪ ((fun _ => stopCh) <$> <[gvr := informer]> (informers s)))
           (set_informers (insert gvr informer) (log_reviews (sent key gvr) s)).
Proof.
  destruct factory as [f|]; [|done].
  destruct client as [cl|]; [|done].
  destruct (Resource cl (GroupKind_of (Key_GroupVersionKind key))) as [gvr|e0] eqn:HR.
  - destruct (KubernetesClient cl) as [[k8s|] e] eqn:Hk.
    + rewrite (currentInformer_run _ _ _ _ _ _ _ _ HR Hk).
      destruct (grants k8s key gvr) eqn:Hg; [|done].
      intros [= <- <-]. by exists f, cl, gvr, k8s, e.
    + unfold currentInformer. rewrite HR. unfold checkAccess. rewrite Hk. done.
  - unfold currentInformer. rewrite HR. done.
Qed.

(** The part of [DynamicCache.currentInformer] under the mutex. *)
Lemma resolve_unfold dc key s :
  DynamicCache_currentInformer dc key s =
  match currentInformer key (client dc) (factory dc) (stopCh dc) s with
  | (Ret informer, s1) =>
      match seenGVKs s1 !! Key_GroupVersionKind key with
      | Some _ => (Ret informer, s1)
      | None =>
          match HasSynced informer with
          | Some _ =>
              (Ret informer,
               set_seenGVKs (insert (Key_GroupVersionKind key) true)
                 (log_syncWait (informer_resource informer) s1))
          | None => (Blocks, log_syncWait (informer_resource informer) s1)
          end
      end
  | (Err e, s1) => (Err e, s1)
  | (Panics, s1) => (Panics, s1)
  | (Blocks, s1) => (Blocks, s1)
  end.
Proof.
  unfold DynamicCache_currentInformer, mbind, M_bind.
  destruct (currentInformer _ _ _ _ _) as [[informer|e| |] s1]; try done.
  destruct (seenGVKs s1 !! _); [done|].
  by destruct (HasSynced informer).
Qed.

Lemma resolve_never_shutting_down dc key s :
  (DynamicCache_currentInformer dc key s).1 ≠ Err (errors.New "shutting down").
Proof.
  rewrite resolve_unfold.
  pose proof (currentInformer_effect key (client dc) (factory dc) (stopCh dc) s)
    as (_ & _ & _ & _ & _ & _ & HF & _).
  destruct (currentInformer _ _ _ _ _) as [[informer|e| |] s1]; simpl in *; try done.
  destruct (seenGVKs s1 !! _); [done|]. by destruct (HasSynced informer).
Qed.

Lemma resolve_keeps_seen dc key s gvk :
  is_Some (seenGVKs s !! gvk) →
  is_Some (seenGVKs (DynamicCache_currentInformer dc key s).2 !! gvk).
Proof.
  intros Hs. rewrite resolve_unfold.
  pose proof (currentInformer_effect key (client dc) (factory dc) (stopCh dc) s)
    as (HS & _).
  destruct (currentInformer _ _ _ _ _) as [[informer|e| |] s1]; simpl in *;
    try (by rewrite HS).
  destruct (seenGVKs s1 !! Key_GroupVersionKind key) eqn:Hl; simpl; [by rewrite HS|].
  destruct (HasSynced informer); simpl; [|by rewrite HS].
  rewrite lookup_insert. case_decide; [done|]. by rewrite HS.
Qed.

Lemma resolve_skips_wait dc key s :
  is_Some (seenGVKs s !! Key_GroupVersionKind key) →
  syncWaits (DynamicCache_currentInformer dc key s).2 = syncWaits s.
Proof.
  intros [b Hs]. rewrite resolve_unfold.
  pose proof (currentInformer_effect key (client dc) (factory dc) (stopCh dc) s)
    as (HS & HW & _).
  destruct (currentInformer _ _ _ _ _) as [[informer|e| |] s1]; simpl in *; try done.
  by rewrite HS, Hs.
Qed.

Lemma resolve_Ret dc key s informer s1 :
  DynamicCache_currentInformer dc key s = (Ret informer, s1) →
  ∃ f cl gvr k8s e,
    factory dc = Some f ∧ client dc = Some cl ∧
    Resource cl (GroupKind_of (Key_GroupVersionKind key)) = inl gvr ∧
    KubernetesClient cl = (Some k8s, e) ∧ grants k8s key gvr = true ∧
    informers s1 !! gvr = Some informer ∧
    is_Some (seenGVKs s1 !! Key_GroupVersionKind key) ∧
    reviews s1 = (reviews s ++ sent key gvr)%list ∧
    cacheReads s1 = cacheReads s ∧ slept s1 = slept s ∧
    annotations s1 = annotations s ∧ handlers s1 = handlers s.
Proof.
  rewrite resolve_unfold.
  destruct (currentInformer _ _ _ _ _) as [[informer0|e0| |] s0] eqn:HC; try done.
  apply currentInformer_Ret in HC as (f & cl & gvr & k8s & e & Hf & Hc & HR & Hk & Hg & Hi & Hs0).
  intros H. exists f, cl, gvr, k8s, e. repeat (split; [done|]).
  assert (informers s0 !! gvr = Some informer0 ∧ reviews s0 = (reviews s ++ sent key gvr)%list ∧
          cacheReads s0 = cacheReads s ∧ slept s0 = slept s ∧
          annotations s0 = annotations s ∧ handlers s0 = handlers s) as (H1 & H2 & H3 & H4 & H5 & H6).
  { subst s0. cbn. rewrite lookup_insert_eq. unfold sent.
    by rewrite <- !app_assoc. }
  destruct (seenGVKs s0 !! Key_GroupVersionKind key) eqn:Hseen.
  - injection H as <- <-. rewrite Hseen. eauto 10.
  - destruct (HasSynced informer0); [|done].
    injection H as <- <-. cbn. rewrite lookup_insert_eq. eauto 10.
Qed.

Lemma resolve_seen dc key s f cl gvr k8s e informer :
  factory dc = Some f → client dc = Some cl →
  Resource cl (GroupKind_of (Key_GroupVersionKind key)) = inl gvr →
  KubernetesClient cl = (Some k8s, e) → grants k8s key gvr = true →
  informers s !! gvr = Some informer →
  is_Some (seenGVKs s !! Key_GroupVersionKind key) →
  DynamicCache_currentInformer dc key s =
  (Ret informer,
   set_startedInformers
     (fun started => started ∪ ((fun _ => stopCh dc) <$> informers s))
     (log_reviews (sent key gvr) s)).
Proof.
  intros Hf Hc HR Hk Hg Hi [b Hs]. rewrite resolve_unfold, Hf, Hc.
  rewrite (currentInformer_run _ _ _ _ _ _ _ _ HR Hk), Hg, Hi. cbn.
  rewrite Hs. rewrite (insert_id _ _ _ Hi).
  unfold set_startedInformers, set_informers. cbn. by rewrite (insert_id _ _ _ Hi).
Qed.

(** ** The fetch of [Get] *)

Section attempt.

Context (g : GenericLister) (key : Key) (d : Duration).

Lemma attempt_found more v s o :
  lister_Get g (Name key) (cacheReads s) = inl o →
  retry.attempt Get_sleep more d (Get_func g key) (v, s) =
  (None, (mkGetVars (Some o) None (retryCount v), log_cacheRead s)).
Proof. intros H. destruct more; cbn [retry.attempt]; unfold Get_func; by rewrite H. Qed.

Lemma attempt_failed_last v s e :
  lister_Get g (Name key) (cacheReads s) = inr e →
  retry.attempt Get_sleep 0 d (Get_func g key) (v, s) =
  (Some (if kerrors.IsNotFound e then e else retry.Stop (errors.Wrap e "lister Get")),
   (failed_vars v e, log_cacheRead s)).
Proof.
  intros H. cbn [retry.attempt]. unfold Get_func, failed_vars. rewrite H.
  by destruct (kerrors.IsNotFound e).
Qed.

Lemma attempt_failed_again more v s e :
  lister_Get g (Name key) (cacheReads s) = inr e →
  retry.attempt Get_sleep (S more) d (Get_func g key) (v, s) =
  retry.attempt Get_sleep more d (Get_func g key)
    (failed_vars v e, time_Sleep d (log_cacheRead s)).
Proof.
  intros H. cbn [retry.attempt]. unfold Get_func at 1. unfold failed_vars. rewrite H.
  by destruct (kerrors.IsNotFound e).
Qed.

Lemma attempt_not_found_last v s e :
  lister_Get g (Name key) (cacheReads s) = inr e →
  kerrors.IsNotFound e = true →
  retry.attempt Get_sleep 0 d (Get_func g key) (v, s) =
  (Some e, (mkGetVars None (Some e) (retryCount v), log_cacheRead s)).
Proof.
  intros H Hn. rewrite (attempt_failed_last _ _ _ H). unfold failed_vars. by rewrite Hn.
Qed.

Lemma attempt_not_found_again more v s e :
  lister_Get g (Name key) (cacheReads s) = inr e →
  kerrors.IsNotFound e = true →
  retry.attempt Get_sleep (S more) d (Get_func g key) (v, s) =
  retry.attempt Get_sleep more d (Get_func g key)
    (mkGetVars None (Some e) (retryCount v), time_Sleep d (log_cacheRead s)).
Proof.
  intros H Hn. rewrite (attempt_failed_again _ _ _ _ H). unfold failed_vars.
  by rewrite Hn.
Qed.

Lemma attempt_transient_last v s e :
  lister_Get g (Name key) (cacheReads s) = inr e →
  kerrors.IsNotFound e = false →
  retry.attempt Get_sleep 0 d (Get_func g key) (v, s) =
  (Some (retry.Stop (errors.Wrap e "lister Get")),
   (mkGetVars None (Some e) (int64 (retryCount v + 1)), log_cacheRead s)).
Proof.
  intros H Hn. rewrite (attempt_failed_last _ _ _ H). unfold failed_vars. by rewrite Hn.
Qed.



End attempt.

Lemma after_fetch_eq s reads sleeps notes sk i st r w c sl a h :
  sk = seenGVKs s → i = informers s → st = startedInformers s → r = reviews s →
  w = syncWaits s → c = (reads + cacheReads s)%nat → sl = (slept s ++ sleeps)%list →
  a = (annotations s ++ notes)%list → h = handlers s →
  mkState sk i st r w c sl a h = after_fetch s reads sleeps notes.
Proof. by intros -> -> -> -> -> -> -> -> ->. Qed.

Lemma int64_small z : (- 2 ^ 63 ≤ z < 2 ^ 63) → int64 z = z.
Proof. intros H. unfold int64. rewrite Z.mod_small; lia. Qed.

Ltac fetch_done :=
  cbn [retryCount object err fst snd];
  rewrite ?int64_small by lia;
  repeat case_bool_decide; try lia;
  f_equal; apply after_fetch_eq; cbn; by rewrite <- ?app_assoc, ?app_nil_r.





Lemma fetch_absent g key s e :
  not_found_until g key (cacheReads s) 2 →
  lister_Get g (Name key) (2 + cacheReads s) = inr e →
  kerrors.IsNotFound e = true →
  Get_fetch g key s =
  (Ret (Some e, mkGetVars None (Some e) 0),
   after_fetch s 3 [time_Second; time_Second] []).
Proof.
  intros Hnf He Hn. unfold Get_fetch, retry.Retry. cbn [Nat.sub].
  destruct (Hnf 0%nat) as (e0 & H0 & N0); [lia|].
  destruct (Hnf 1%nat) as (e1 & H1 & N1); [lia|].
  rewrite (attempt_not_found_again _ _ _ _ _ _ _ H0 N0).
  rewrite (attempt_not_found_again _ _ _ _ _ _ e1); [|exact H1|exact N1].
  rewrite (attempt_not_found_last _ _ _ _ _ e); [|exact He|exact Hn]. fetch_done.
Qed.

Lemma Get_run dc key s informer s1 :
  DynamicCache_currentInformer dc key (Get_span key s) = (Ret informer, s1) →
  Get dc key s =
  match Get_fetch (lister_for informer key) key s1 with
  | (Ret (Some _, vars), s2) =>
      (match err vars with Some e => Err e | None => Ret None end, s2)
  | (Ret (None, vars), s2) => Get_verify key (object vars) s2
  | (Err e, s2) => (Err e, s2)
  | (Panics, s2) => (Panics, s2)
  | (Blocks, s2) => (Blocks, s2)
  end.
Proof.
  intros HR. unfold Get, mbind, M_bind, wrapping, modify. cbn. rewrite HR.
  destruct (Get_fetch _ _ _) as [[[[e|] vars]| | |] s2]; try done.
  by destruct (err vars).
Qed.

Lemma Get_verify_found key o s :
  Get_verify key (Some o) s =
  (match Selector key with
   | Some set =>
       match accessor_Labels o with
       | inr _ => Err (errors.New "retrieving labels")
       | inl labels =>
           if kLabels.Matches (kLabels.AsSelector set) labels
           then match ToUnstructured o with
                | inl u => Ret (Some (mkUnstructured u))
                | inr e =>
                    Err (errors.Wrapf e "converting %T to unstructured"
                            [arg_type (go_type o)])
                end
           else Err (errors.New "object found but filtered by selector")
       end
   | None =>
       match ToUnstructured o with
       | inl u => Ret (Some (mkUnstructured u))
       | inr e =>
           Err (errors.Wrapf e "converting %T to unstructured" [arg_type (go_type o)])
       end
   end, s).
Proof.
  unfold Get_verify, mbind, M_bind. cbn.
  destruct (Selector key) as [set|]; cbn.
  - destruct (accessor_Labels o) as [labels|]; cbn; [|done].
    destruct (kLabels.Matches _ _); cbn; [|done]. by destruct (ToUnstructured o).
  - by destruct (ToUnstructured o).
Qed.

(** ** Sequences of calls *)

Lemma run_keeps_seen dc c s gvk :
  is_Some (seenGVKs s !! gvk) → is_Some (seenGVKs (run dc c s).2 !! gvk).
Proof.
  intros Hs.
  pose proof (run_resolution dc c s) as HR.
  apply resolution_eq in HR as (-> & _).
  apply resolve_keeps_seen.
  pose proof (span_of_resolution c s) as HS.
  apply resolution_eq in HS as (-> & _). done.
Qed.

Lemma run_all_keeps_seen dc calls s gvk :
  is_Some (seenGVKs s !! gvk) → is_Some (seenGVKs (run_all dc calls s) !! gvk).
Proof.
  revert s. induction calls as [|c calls IH]; intros s Hs; [done|].
  cbn. apply IH. by apply run_keeps_seen.
Qed.

Lemma run_skips_wait dc c s :
  is_Some (seenGVKs s !! Key_GroupVersionKind (call_key c)) →
  syncWaits (run dc c s).2 = syncWaits s.
Proof.
  intros Hs.
  pose proof (run_resolution dc c s) as HR.
  apply resolution_eq in HR as (_ & _ & _ & _ & ->).
  pose proof (span_of_resolution c s) as HS.
  apply resolution_eq in HS as (Hseen & _ & _ & _ & Hw).
  rewrite <- Hw. apply resolve_skips_wait. by rewrite Hseen.
Qed.

(** What a call that returned leaves behind: the client resolves the type
    to a resource the endpoint grants, the factory holds an informer for
    it, and the type is seen. *)
Lemma run_Ret_resolved dc c s r :
  (run dc c s).1 = Ret r →
  ∃ f cl gvr k8s e informer,
    factory dc = Some f ∧ client dc = Some cl ∧
    Resource cl (GroupKind_of (Key_GroupVersionKind (call_key c))) = inl gvr ∧
    KubernetesClient cl = (Some k8s, e) ∧ grants k8s (call_key c) gvr = true ∧
    informers (run dc c s).2 !! gvr = Some informer ∧
    is_Some (seenGVKs (run dc c s).2 !! Key_GroupVersionKind (call_key c)).
Proof.
  intros HR. apply run_Ret in HR as [informer HR].
  pose proof (run_resolution dc c s) as HC.
  destruct (DynamicCache_currentInformer dc (call_key c) (span_of c s))
    as [o s1] eqn:HD.
  cbn in HR. subst o.
  apply resolve_Ret in HD as (f & cl & gvr & k8s & e & ? & ? & ? & ? & ? & Hi & Hs & _).
  apply resolution_eq in HC as (HC1 & HC2 & _). cbn in HC1, HC2.
  exists f, cl, gvr, k8s, e, informer. rewrite HC1, HC2. done.
Qed.

(** ** The model at work *)

Example FromAPIVersionAndKind_group :
  FromAPIVersionAndKind "apps/v1" "Deployment" = mkGroupVersionKind "apps" "v1" "Deployment".
Proof. reflexivity. Qed.

Example FromAPIVersionAndKind_core :
  FromAPIVersionAndKind "v1" "Pod" = mkGroupVersionKind "" "v1" "Pod".
Proof. reflexivity. Qed.

Example Matches_subset :
  kLabels.Matches (kLabels.AsSelector {[ "app" := "nginx" ]})
    {[ "app" := "nginx"; "tier" := "web" ]} = true ∧
  kLabels.Matches (kLabels.AsSelector {[ "app" := "redis" ]})
    {[ "app" := "nginx"; "tier" := "web" ]} = false ∧
  kLabels.Matches kLabels.Everything ∅ = true.
Proof. by vm_compute. Qed.

Example label_formats :
  validation.IsQualifiedName "app" = true ∧
  validation.IsQualifiedName "app.kubernetes.io/name" = true ∧
  validation.IsQualifiedName "/name" = false ∧
  validation.IsQualifiedName "a/b/c" = false ∧
  validation.IsValidLabelValue "" = true ∧
  validation.IsValidLabelValue "nginx-1.17_a" = true ∧
  validation.IsValidLabelValue "-nginx" = false ∧
  validation.IsValidLabelValue "not a label value!" = false.
Proof. by vm_compute. Qed.

(** A set with a value that is no label value makes the selector that
    matches everything: [Get] returns the pod labelled [app=nginx] for such
    a selector on [app]. *)
Example Get_selector_of_invalid_set :
  let dc := cluster.cache_with (cluster.granting cluster.all_verbs) (Some 0%nat)
              (fun _ => inl cluster.nginx) None in
  kLabels.AsSelector {[ "app" := "not a label value!" ]} = kLabels.Everything ∧
  (Get dc (cluster.pod_key_selecting "not a label value!") new_state).1 =
    Ret (Some (mkUnstructured [("kind", "Pod"); ("name", "nginx")])).
Proof. by vm_compute. Qed.

(** A first [Get] on a synced informer: three reviews, one wait, one read,
    the type seen. *)
Example Get_first_touch :
  let dc := cluster.cache_with (cluster.granting cluster.all_verbs) (Some 0%nat)
              (fun _ => inl cluster.nginx) None in
  let r := Get dc cluster.pod_key new_state in
  r.1 = Ret (Some (mkUnstructured [("kind", "Pod"); ("name", "nginx")])) ∧
  reviews r.2 = sent cluster.pod_key cluster.pods ∧
  syncWaits r.2 = [cluster.pods] ∧ cacheReads r.2 = 1%nat ∧ slept r.2 = [] ∧
  seenGVKs r.2 !! mkGroupVersionKind "" "v1" "Pod" = Some true.
Proof. by vm_compute. Qed.

(** A kind the client cannot resolve: the error of the client, wrapped
    twice, and nothing sent. *)
Example List_unknown_kind :
  let dc := cluster.cache_with (cluster.granting cluster.all_verbs) (Some 0%nat)
              (fun _ => inl cluster.nginx) None in
  let key := mkKey "" "v1" "Gadget" "" None in
  let r := List dc key new_state in
  r.1 = Err (errors.Wrapf (errors.Wrap (errors.New "no matches for kind") "client resource")
               "retrieving informer for %v" [arg_key key]) ∧
  reviews r.2 = [].
Proof. by vm_compute. Qed.

(** * The claims *)




(** C2: the code at the failing input.  Resolving an informer never
    fails with "shutting down", whatever the stop channel of the cache.
    With the stop channel closed from the start and an informer that never
    syncs, each operation blocks; with an informer that syncs later, the
    operation goes through and the type is marked as seen. *)
Theorem C2_wait_ignores_shutdown :
  (∀ dc key s,
     (DynamicCache_currentInformer dc key s).1 ≠ Err (errors.New "shutting down")) ∧
  (let dc := cluster.cache_with (cluster.granting cluster.all_verbs) None
               (fun _ => inl cluster.nginx) (Some 0%nat) in
   (run dc (call_List cluster.pod_key) new_state).1 = Blocks ∧
   (run dc (call_Get cluster.pod_key) new_state).1 = Blocks ∧
   (run dc (call_Watch cluster.pod_key "handler") new_state).1 = Blocks) ∧
  (let dc := cluster.cache_with (cluster.granting cluster.all_verbs) (Some 5%nat)
               (fun _ => inl cluster.nginx) (Some 0%nat) in
   (run dc (call_Watch cluster.pod_key "handler") new_state).1 = Ret watching ∧
   seenGVKs (run dc (call_Watch cluster.pod_key "handler") new_state).2
     !! Key_GroupVersionKind cluster.pod_key = Some true).
Proof.
  split; [apply resolve_never_shutting_down|]. split; by vm_compute.
Qed.

(** C3, as amended.  After a call for a type has returned, a later call
    for the same (group, version, kind) sends the three reviews (get,
    list, watch) again, and leaves the informers of the factory as they
    are: the informer of the type is the one it already holds. *)
Theorem C3_reviews_on_every_call dc c1 c2 s r1 :
  (run dc c1 s).1 = Ret r1 →
  Key_GroupVersionKind (call_key c2) = Key_GroupVersionKind (call_key c1) →
  ∃ cl gvr,
    client dc = Some cl ∧
    Resource cl (GroupKind_of (Key_GroupVersionKind (call_key c2))) = inl gvr ∧
    is_Some (informers (run dc c1 s).2 !! gvr) ∧
    reviews (run dc c2 (run dc c1 s).2).2 =
      (reviews (run dc c1 s).2 ++ sent (call_key c2) gvr)%list ∧
    informers (run dc c2 (run dc c1 s).2).2 = informers (run dc c1 s).2.
Proof.
  intros HR Hgvk.
  apply run_Ret_resolved in HR
    as (f & cl & gvr & k8s & e & informer & Hf & Hc & Hres & Hk & Hg & Hi & Hs).
  set (s1 := (run dc c1 s).2) in *.
  exists cl, gvr. rewrite Hgvk. split; [done|]. split; [done|]. split; [eauto|].
  pose proof (run_resolution dc c2 s1) as HC.
  pose proof (span_of_resolution c2 s1) as HS.
  apply resolution_eq in HS as (HS1 & HS2 & _ & HS4 & _).
  rewrite (resolve_seen dc (call_key c2) (span_of c2 s1) f cl gvr k8s e informer) in HC.
  - apply resolution_eq in HC as (_ & HC2 & _ & HC4 & _).
    rewrite HC2, HC4. cbn. rewrite HS2. split; [|done].
    unfold sent. rewrite HS4. by rewrite <- !app_assoc.
  - done.
  - done.
  - by rewrite Hgvk.
  - done.
  - unfold grants in *. by rewrite !(allowed_key k8s (call_key c2) (call_key c1)).
  - by rewrite HS2.
  - by rewrite HS1, Hgvk.
Qed.

Lemma C3_witness :
  let dc := cluster.cache_with (cluster.granting cluster.all_verbs) (Some 0%nat)
              (fun _ => inl cluster.nginx) None in
  let s1 := (run dc (call_Get cluster.pod_key) new_state).2 in
  let c2 := call_List (mkKey "kube-system" "v1" "Pod" "" None) in
  ∃ cl gvr,
    client dc = Some cl ∧
    Resource cl (GroupKind_of (Key_GroupVersionKind (call_key c2))) = inl gvr ∧
    is_Some (informers s1 !! gvr) ∧
    reviews (run dc c2 s1).2 = (reviews s1 ++ sent (call_key c2) gvr)%list ∧
    informers (run dc c2 s1).2 = informers s1.
Proof.
  intros dc s1 c2.
  apply (C3_reviews_on_every_call dc (call_Get cluster.pod_key) c2 new_state
           (got (Some (mkUnstructured [("kind", "Pod"); ("name", "nginx")])))).
  - vm_compute. reflexivity.
  - reflexivity.
Defined.

(** C3 as stated fails: a second [Get] for the same key sends three more
    reviews: three after the first call, six after the second. *)
Lemma C3_counterexample :
  let dc := cluster.cache_with (cluster.granting cluster.all_verbs) (Some 0%nat)
              (fun _ => inl cluster.nginx) None in
  let first := run dc (call_Get cluster.pod_key) new_state in
  let second := run dc (call_Get cluster.pod_key) first.2 in
  first.1 = Ret (got (Some (mkUnstructured [("kind", "Pod"); ("name", "nginx")]))) ∧
  List.length (reviews first.2) = 3%nat ∧
  List.length (reviews second.2) = 6%nat ∧
  reviews second.2 = (reviews first.2 ++ sent cluster.pod_key cluster.pods)%list.
Proof. by vm_compute. Qed.

(** C4, as amended.  When the endpoint denies at least one of get, list
    and watch, the access check fails, and the text of the error is
    "requires cluster scoped get/list/watch access, have get: <b>, list:
    <b>, watch: <b>", with the verdict on each verb; a type granted get
    alone reads "get: true, list: false, watch: false". *)
Theorem C4_access_error_text client k8s e key gvr s :
  KubernetesClient client = (Some k8s, e) →
  allowed k8s key gvr "get" && allowed k8s key gvr "list" && allowed k8s key gvr "watch"
    = false →
  (checkAccess client key gvr s).1 =
    Err (errors.New
            ("requires cluster scoped get/list/watch access, have get: " ++
             fmt_t (allowed k8s key gvr "get") ++ ", list: " ++
             fmt_t (allowed k8s key gvr "list") ++ ", watch: " ++
             fmt_t (allowed k8s key gvr "watch"))) ∧
  (allowed k8s key gvr "get" = true →
   allowed k8s key gvr "list" = false → allowed k8s key gvr "watch" = false →
   (checkAccess client key gvr s).1 =
     Err (errors.New
       "requires cluster scoped get/list/watch access, have get: true, list: false, watch: false")).
Proof.
  intros Hk Hd. rewrite (checkAccess_run _ _ _ _ _ _ Hk). cbn zeta. rewrite Hd.
  split; [done|]. by intros -> -> ->.
Qed.

Lemma C4_witness :
  (checkAccess (mkClient cluster.resource_of (Some (cluster.granting ["get"]), None))
     cluster.pod_key cluster.pods new_state).1 =
  Err (errors.New
    "requires cluster scoped get/list/watch access, have get: true, list: false, watch: false").
Proof.
  refine (proj2 (C4_access_error_text
            (mkClient cluster.resource_of (Some (cluster.granting ["get"]), None))
            (cluster.granting ["get"]) None cluster.pod_key cluster.pods new_state _ _)
            _ _ _).
  - reflexivity.
  - vm_compute. reflexivity.
  - vm_compute. reflexivity.
  - vm_compute. reflexivity.
  - vm_compute. reflexivity.
Defined.

(** C4 as stated fails: with get alone granted the text of the error is
    not the one in the claim, which has "scope-wide" and no space after
    the colons. *)
Lemma C4_counterexample :
  (checkAccess (mkClient cluster.resource_of (Some (cluster.granting ["get"]), None))
     cluster.pod_key cluster.pods new_state).1 =
  Err (errors.New
    "requires cluster scoped get/list/watch access, have get: true, list: false, watch: false") ∧
  (checkAccess (mkClient cluster.resource_of (Some (cluster.granting ["get"]), None))
     cluster.pod_key cluster.pods new_state).1 ≠
  Err (errors.New
    "requires scope-wide get/list/watch access, have get:true, list:false, watch:false").
Proof. split; [by vm_compute|]. vm_compute. intros [=]. Qed.



(** C6: the code at the failing input.  When [KubernetesClient] returns
    an error and no client, [checkAccess] does not return the error: it
    calls a method on the nil client and panics, and so does every
    operation of the cache.  When it returns an error along with a client,
    the error is dropped and the check goes on as if there were none. *)
Theorem C6_kubernetes_client_error_dropped resource e k8s key gvr s :
  (checkAccess (mkClient resource (None, Some e)) key gvr s).1 = Panics ∧
  checkAccess (mkClient resource (Some k8s, Some e)) key gvr s =
    checkAccess (mkClient resource (Some k8s, None)) key gvr s ∧
  (run cluster.cache_without_kubernetes (call_Get cluster.pod_key) new_state).1 = Panics ∧
  (run cluster.cache_without_kubernetes (call_List cluster.pod_key) new_state).1 = Panics ∧
  (run cluster.cache_without_kubernetes (call_Watch cluster.pod_key "handler") new_state).1
    = Panics.
Proof.
  split; [done|]. split.
  - rewrite (checkAccess_run (mkClient resource (Some k8s, Some e)) k8s (Some e) key gvr s eq_refl).
    by rewrite (checkAccess_run (mkClient resource (Some k8s, None)) k8s None key gvr s eq_refl).
  - by vm_compute.
Qed.



(** C8.  A type that is marked as seen stays so through any calls of
    [List], [Get] and [Watch], and a call whose key has that (group,
    version, kind), whatever its namespace, name and selector, adds no
    wait for the informer to sync. *)
Theorem C8_seen_types_are_kept dc s gvk calls c :
  is_Some (seenGVKs s !! gvk) →
  Key_GroupVersionKind (call_key c) = gvk →
  is_Some (seenGVKs (run_all dc calls s) !! gvk) ∧
  is_Some (seenGVKs (run dc c (run_all dc calls s)).2 !! gvk) ∧
  syncWaits (run dc c (run_all dc calls s)).2 = syncWaits (run_all dc calls s).
Proof.
  intros Hs Hgvk.
  pose proof (run_all_keeps_seen dc calls _ _ Hs) as Hkept.
  split; [done|]. split; [by apply run_keeps_seen|].
  apply run_skips_wait. by rewrite Hgvk.
Qed.

Lemma C8_witness :
  let dc := cluster.cache_with (cluster.granting cluster.all_verbs) (Some 0%nat)
              (fun _ => inl cluster.nginx) None in
  let s := (run dc (call_Get cluster.pod_key) new_state).2 in
  let calls := [call_List cluster.pod_key; call_Watch cluster.pod_key "handler"] in
  let c := call_Get (mkKey "kube-system" "v1" "Pod" "coredns" (Some {[ "k8s-app" := "dns" ]})) in
  is_Some (seenGVKs (run_all dc calls s) !! Key_GroupVersionKind cluster.pod_key) ∧
  is_Some (seenGVKs (run dc c (run_all dc calls s)).2
             !! Key_GroupVersionKind cluster.pod_key) ∧
  syncWaits (run dc c (run_all dc calls s)).2 = syncWaits (run_all dc calls s).
Proof.
  intros dc s calls c.
  apply (C8_seen_types_are_kept dc s (Key_GroupVersionKind cluster.pod_key) calls c).
  - vm_compute. eexists. reflexivity.
  - reflexivity.
Defined.

(** C9.  When the self-permission query for a verb fails, the closure
    answers false for the verb, and the access check fails with the access
    error, which reports that verb as false and does not carry the error
    of the query. *)
Theorem C9_query_error_is_denial client k8s e key gvr s verb query_error :
  KubernetesClient client = (Some k8s, e) →
  verb ∈ ["get"; "list"; "watch"] →
  SelfSubjectAccessReviews_Create k8s (checkVerb_sar key gvr verb) = inr query_error →
  (checkVerb k8s key gvr verb s).1 = Ret false ∧
  ∃ get list watch : bool,
    (checkAccess client key gvr s).1 = Err (errors.New (access_text get list watch)) ∧
    (verb = "get" → get = false) ∧ (verb = "list" → list = false) ∧
    (verb = "watch" → watch = false).
Proof.
  intros Hk Hv Hq.
  assert (allowed k8s key gvr verb = false) as Ha by (unfold allowed; by rewrite Hq).
  split; [by rewrite checkVerb_run, Ha|].
  exists (allowed k8s key gvr "get"), (allowed k8s key gvr "list"),
         (allowed k8s key gvr "watch").
  rewrite (checkAccess_run _ _ _ _ _ _ Hk). cbn zeta.
  assert (allowed k8s key gvr "get" && allowed k8s key gvr "list" &&
          allowed k8s key gvr "watch" = false) as ->.
  { set_unfold in Hv. destruct Hv as [->|[->|[->|[]]]]; rewrite Ha;
      by rewrite ?andb_false_r. }
  split; [done|]. repeat split; by intros <-.
Qed.

Lemma C9_witness :
  (checkVerb cluster.unreachable cluster.pod_key cluster.pods "list" new_state).1 = Ret false ∧
  ∃ get list watch : bool,
    (checkAccess (mkClient cluster.resource_of (Some cluster.unreachable, None))
       cluster.pod_key cluster.pods new_state).1 =
      Err (errors.New (access_text get list watch)) ∧
    ("list" = "get" → get = false) ∧ ("list" = "list" → list = false) ∧
    ("list" = "watch" → watch = false).
Proof.
  apply (C9_query_error_is_denial
           (mkClient cluster.resource_of (Some cluster.unreachable, None))
           cluster.unreachable None cluster.pod_key cluster.pods new_state "list"
           (errors.New "connection refused")).
  - reflexivity.
  - set_solver.
  - reflexivity.
Defined.

(** C10.  For a key with a namespace, the review of every verb asks about
    all namespaces, so an endpoint that allows nothing across namespaces,
    whatever it allows inside the namespace of the key, makes the access
    check fail. *)
Theorem C10_review_is_cluster_wide client k8s e key gvr s :
  Namespace key ≠ "" →
  KubernetesClient client = (Some k8s, e) →
  (∀ sar response,
     ra_Namespace (Spec_ResourceAttributes sar) = NamespaceAll →
     SelfSubjectAccessReviews_Create k8s sar = inl response →
     Status_Allowed response = false) →
  (∀ verb, ra_Namespace (Spec_ResourceAttributes (checkVerb_sar key gvr verb))
           = NamespaceAll) ∧
  reviews (checkAccess client key gvr s).2 = (reviews s ++ sent key gvr)%list ∧
  (checkAccess client key gvr s).1 = Err (errors.New (access_text false false false)).
Proof.
  intros Hns Hk Hscoped.
  assert (∀ verb, ra_Namespace (Spec_ResourceAttributes (checkVerb_sar key gvr verb))
                  = NamespaceAll) as Hall.
  { intros verb. by rewrite checkVerb_sar_all_namespaces. }
  assert (∀ verb, allowed k8s key gvr verb = false) as Ha.
  { intros verb. unfold allowed.
    destruct (SelfSubjectAccessReviews_Create k8s _) as [response|] eqn:Hc; [|done].
    by apply (Hscoped _ _ (Hall verb) Hc). }
  split; [done|].
  rewrite (checkAccess_run _ _ _ _ _ _ Hk). cbn zeta. rewrite !Ha. cbn.
  split; [|done]. unfold sent. by rewrite <- !app_assoc.
Qed.

Lemma C10_witness :
  (checkAccess (mkClient cluster.resource_of (Some (cluster.granting_within "default"), None))
     cluster.pod_key cluster.pods new_state).1 =
  Err (errors.New (access_text false false false)).
Proof.
  refine (proj2 (proj2 (C10_review_is_cluster_wide
            (mkClient cluster.resource_of (Some (cluster.granting_within "default"), None))
            (cluster.granting_within "default") None cluster.pod_key cluster.pods
            new_state _ _ _))).
  - vm_compute. intros [=].
  - reflexivity.
  - intros sar response Hns [= <-]. cbn. rewrite Hns. reflexivity.
Defined.

(** * Further properties *)

(** ** What resolving leaves alone *)

Lemma resolve_frame dc key s :
  cacheReads (DynamicCache_currentInformer dc key s).2 = cacheReads s ∧
  slept (DynamicCache_currentInformer dc key s).2 = slept s ∧
  annotations (DynamicCache_currentInformer dc key s).2 = annotations s ∧
  handlers (DynamicCache_currentInformer dc key s).2 = handlers s.
Proof.
  rewrite resolve_unfold.
  pose proof (currentInformer_effect key (client dc) (factory dc) (stopCh dc) s)
    as (_ & _ & HC & HS & HA & HH & _).
  destruct (currentInformer _ _ _ _ _) as [[informer|e| |] s1]; simpl in *; try done.
  destruct (seenGVKs s1 !! _); [done|]. by destruct (HasSynced informer).
Qed.

(** ** The fetch, whatever the lister answers *)

Lemma attempt_bounds g key d more v s :
  ∃ k, (k ≤ more)%nat ∧
    slept (retry.attempt Get_sleep more d (Get_func g key) (v, s)).2.2
      = (slept s ++ replicate k d)%list ∧
    cacheReads (retry.attempt Get_sleep more d (Get_func g key) (v, s)).2.2
      = (S k + cacheReads s)%nat ∧
    handlers (retry.attempt Get_sleep more d (Get_func g key) (v, s)).2.2 = handlers s ∧
    annotations (retry.attempt Get_sleep more d (Get_func g key) (v, s)).2.2
      = annotations s.
Proof.
  revert v s. induction more as [|more IH]; intros v s.
  - exists 0%nat.
    destruct (lister_Get g (Name key) (cacheReads s)) as [o|e] eqn:Hr.
    + rewrite (attempt_found _ _ _ _ _ _ _ Hr). cbn. by rewrite app_nil_r.
    + rewrite (attempt_failed_last _ _ _ _ _ _ Hr). cbn. by rewrite app_nil_r.
  - destruct (lister_Get g (Name key) (cacheReads s)) as [o|e] eqn:Hr.
    + exists 0%nat. rewrite (attempt_found _ _ _ _ _ _ _ Hr). cbn.
      rewrite app_nil_r. repeat split; try done. lia.
    + rewrite (attempt_failed_again _ _ _ _ _ _ _ Hr).
      destruct (IH (failed_vars v e) (time_Sleep d (log_cacheRead s)))
        as (k & Hk & H1 & H2 & H3 & H4).
      exists (S k). rewrite H1, H2, H3, H4. cbn.
      rewrite <- app_assoc. repeat split; try done; lia.
Qed.

Lemma attempt_vars g key d more v s :
  match retry.attempt Get_sleep more d (Get_func g key) (v, s) with
  | (None, (vars, _)) => is_Some (object vars)
  | (Some e, (vars, _)) =>
      err vars = Some e ∨
      ∃ e0, err vars = Some e0 ∧ e = retry.Stop (errors.Wrap e0 "lister Get") ∧
            kerrors.IsNotFound e0 = false
  end.
Proof.
  revert v s. induction more as [|more IH]; intros v s.
  - destruct (lister_Get g (Name key) (cacheReads s)) as [o|e] eqn:Hr.
    + rewrite (attempt_found _ _ _ _ _ _ _ Hr). by eexists.
    + destruct (kerrors.IsNotFound e) eqn:Hn.
      * rewrite (attempt_not_found_last _ _ _ _ _ _ Hr Hn). by left.
      * rewrite (attempt_transient_last _ _ _ _ _ _ Hr Hn). right. by exists e.
  - destruct (lister_Get g (Name key) (cacheReads s)) as [o|e] eqn:Hr.
    + rewrite (attempt_found _ _ _ _ _ _ _ Hr). by eexists.
    + rewrite (attempt_failed_again _ _ _ _ _ _ _ Hr). apply IH.
Qed.

Lemma Get_fetch_bounds g key s :
  ∃ k fetched s2,
    Get_fetch g key s = (Ret fetched, s2) ∧ (k ≤ 2)%nat ∧
    slept s2 = (slept s ++ replicate k time_Second)%list ∧
    cacheReads s2 = (S k + cacheReads s)%nat ∧
    handlers s2 = handlers s ∧
    match fetched with
    | (None, vars) => is_Some (object vars)
    | (Some _, vars) => is_Some (err vars)
    end.
Proof.
  unfold Get_fetch, retry.Retry. cbn [Nat.sub].
  destruct (attempt_bounds g key time_Second 2 (mkGetVars None None 0) s)
    as (k & Hk & H1 & H2 & H3 & _).
  pose proof (attempt_vars g key time_Second 2 (mkGetVars None None 0) s) as HV.
  destruct (retry.attempt _ _ _ _ _) as [retryErr [vars s1]]. cbn in *.
  exists k.
  destruct (bool_decide (retryCount vars > 0)); cbn;
    (eexists; eexists; split; [reflexivity|]; cbn; repeat split; try done;
     destruct retryErr as [e|]; [|done];
     destruct HV as [->|(e0 & -> & _)]; by eexists).
Qed.

(** X18.  Whatever the lister answers, [Get] reads the cache at most
    three times, the budget it gives [retry.Retry], and sleeps once before
    each read after the first, so at most twice; a [Get] that does not get
    its informer reads nothing and does not sleep. *)
Theorem Get_reads_and_sleeps_bounded dc key s :
  ∃ k sleeps, (k ≤ 2)%nat ∧ List.length sleeps = k ∧
    slept (Get dc key s).2 = (slept s ++ sleeps)%list ∧
    (cacheReads (Get dc key s).2 = (S k + cacheReads s)%nat ∨
     k = 0%nat ∧ cacheReads (Get dc key s).2 = cacheReads s ∧
     ∀ informer,
       (DynamicCache_currentInformer dc key (Get_span key s)).1 ≠ Ret informer).
Proof.
  pose proof (resolve_frame dc key (Get_span key s)) as (HC & HS & _).
  destruct (DynamicCache_currentInformer dc key (Get_span key s))
    as [[informer|e| |] s1] eqn:HR; cbn in HC, HS.
  2-4: exists 0%nat, []; split; [lia|]; split; [done|];
       unfold Get, mbind, M_bind, wrapping, modify; cbn; rewrite HR; cbn;
       rewrite app_nil_r, HC, HS; split; [done|]; right; done.
  rewrite (Get_run _ _ _ _ _ HR).
  destruct (Get_fetch_bounds (lister_for informer key) key s1)
    as (k & [retryErr vars] & s2 & -> & Hk & H1 & H2 & _).
  exists k, (replicate k time_Second). split; [done|].
  split; [by rewrite length_replicate|]. rewrite <- HC, <- HS, <- H1, <- H2.
  destruct retryErr as [e|]; [by split; [|left]|].
  rewrite Get_verify_state. by split; [|left].
Qed.

(** X19.  [Get] never returns a nil object with a nil error. *)
Theorem Get_never_nil_nil dc key s : (Get dc key s).1 ≠ Ret None.
Proof.
  destruct (DynamicCache_currentInformer dc key (Get_span key s))
    as [[informer|e| |] s1] eqn:HR.
  2-4: unfold Get, mbind, M_bind, wrapping, modify; cbn; by rewrite HR.
  rewrite (Get_run _ _ _ _ _ HR).
  destruct (Get_fetch_bounds (lister_for informer key) key s1)
    as (k & [retryErr vars] & s2 & -> & _ & _ & _ & _ & HV).
  destruct retryErr as [e|].
  - destruct HV as [e0 ->]. done.
  - destruct HV as [o ->]. rewrite Get_verify_found. cbn.
    destruct (Selector key).
    + destruct (accessor_Labels o); [|done].
      destruct (kLabels.Matches _ _); [|done]. by destruct (ToUnstructured o).
    + by destruct (ToUnstructured o).
Qed.

(** ** How resolving and the operations can end *)

Lemma currentInformer_not_Ret key client factory stopCh s o s1 :
  currentInformer key client factory stopCh s = (o, s1) →
  (∀ informer, o ≠ Ret informer) →
  informers s1 = informers s ∧ startedInformers s1 = startedInformers s ∧
  (o = Panics →
   s1 = s ∧ ∃ cl e, client = Some cl ∧ KubernetesClient cl = (None, e)).
Proof.
  destruct factory as [f|]; [|by intros [= <- <-]].
  destruct client as [cl|]; [|by intros [= <- <-]].
  destruct (Resource cl (GroupKind_of (Key_GroupVersionKind key))) as [gvr|e0] eqn:HR.
  - destruct (KubernetesClient cl) as [[k8s|] e] eqn:Hk.
    + rewrite (currentInformer_run _ _ _ _ _ _ _ _ HR Hk).
      destruct (grants k8s key gvr).
      * intros [= <- <-] Hn. by destruct (Hn _ eq_refl).
      * by intros [= <- <-].
    + unfold currentInformer. rewrite HR. unfold checkAccess. rewrite Hk.
      intros [= <- <-] _. repeat split; try done. by exists cl, e.
  - unfold currentInformer. rewrite HR. by intros [= <- <-].
Qed.

Lemma resolve_resolved dc key s :
  resolved dc key s (DynamicCache_currentInformer dc key s).
Proof.
  rewrite resolve_unfold.
  pose proof (currentInformer_effect key (client dc) (factory dc) (stopCh dc) s)
    as (HS & _ & _ & _ & _ & _ & _ & HB).
  destruct (currentInformer _ _ _ _ _) as [[informer|e| |] s1] eqn:HC; cbn in HS, HB.
  - rewrite HS.
    destruct (seenGVKs s !! Key_GroupVersionKind key) eqn:Hseen.
    + by apply resolved_seen.
    + destruct (HasSynced informer) eqn:Hsync.
      * by eapply resolved_synced.
      * by apply resolved_blocked.
  - by apply resolved_not.
  - by apply resolved_not.
  - done.
Qed.

Lemma run_unresolved dc c s o s1 :
  DynamicCache_currentInformer dc (call_key c) (span_of c s) = (o, s1) →
  (∀ informer, o ≠ Ret informer) →
  run dc c s =
  (match o with
   | Err e => Err (errors.Wrapf e (retrieving_format c) [arg_key (call_key c)])
   | Panics => Panics
   | _ => Blocks
   end, s1).
Proof.
  intros HR Hn.
  destruct c as [key|key|key handler]; cbn in HR |- *;
    unfold List, Get, Watch, mbind, M_bind, wrapping, modify; cbn; rewrite HR;
    destruct o as [informer|e| |]; try done; by destruct (Hn informer eq_refl).
Qed.

Lemma List_convert_outcome objects s :
  (List_convert objects s).1 ≠ Panics ∧ (List_convert objects s).1 ≠ Blocks.
Proof.
  induction objects as [|obj rest IH]; [done|]. cbn.
  destruct (ToUnstructured obj); [|done].
  unfold mbind, M_bind. by destruct (List_convert rest s) as [[] ?].
Qed.

Lemma run_resolved dc c s informer s1 :
  DynamicCache_currentInformer dc (call_key c) (span_of c s) = (Ret informer, s1) →
  (run dc c s).1 ≠ Panics ∧ (run dc c s).1 ≠ Blocks.
Proof.
  intros HR. destruct c as [key|key|key handler]; cbn in HR |- *.
  - unfold List, mbind, M_bind, wrapping, modify, gets; cbn. rewrite HR. cbn.
    destruct (lister_List _ _ _) as [objects|e]; [|done].
    pose proof (List_convert_outcome objects (log_cacheRead s1)) as HL.
    destruct (List_convert objects (log_cacheRead s1)) as [[] ?]; cbn in *;
      by destruct HL.
  - unfold mbind, M_bind; cbn [fst]. 
    pose proof (Get_run _ _ _ _ _ HR) as HG.
    destruct (Get_fetch_bounds (lister_for informer key) key s1)
      as (k & [retryErr vars] & s2 & HF & _ & _ & _ & _ & HV).
    rewrite HF in HG. destruct retryErr as [e|].
    + destruct HV as [e0 He0]. rewrite He0 in HG. by rewrite HG.
    + destruct HV as [o Ho]. rewrite Ho, Get_verify_found in HG. rewrite HG. cbn.
      destruct (Selector key).
      * destruct (accessor_Labels o); [|done].
        destruct (kLabels.Matches _ _); [|done]. by destruct (ToUnstructured o).
      * by destruct (ToUnstructured o).
  - unfold Watch, mbind, M_bind, wrapping, modify; cbn. by rewrite HR.
Qed.

(** X11.  An operation panics only when the client of the cache has no
    Kubernetes client to give, and then before anything is sent or
    built. *)
Theorem run_panics_only_without_kubernetes dc c s :
  (run dc c s).1 = Panics →
  (∃ cl e, client dc = Some cl ∧ KubernetesClient cl = (None, e)) ∧
  (run dc c s).2 = span_of c s.
Proof.
  intros HP.
  pose proof (resolve_resolved dc (call_key c) (span_of c s)) as HR.
  destruct (DynamicCache_currentInformer dc (call_key c) (span_of c s)) as [o s1] eqn:HD.
  inversion HR as [o' s1' HC Hn| informer s1' HC Hs | informer s1' t HC Hs Ht
                  | informer s1' HC Hs Ht]; subst.
  - rewrite (run_unresolved _ _ _ _ _ HD Hn) in HP |- *. cbn in HP |- *.
    destruct o as [informer|e| |]; try done.
    destruct (currentInformer_not_Ret _ _ _ _ _ _ _ HC Hn) as (_ & _ & HX).
    destruct (HX eq_refl) as (-> & Hcl). done.
  - by destruct (run_resolved _ _ _ _ _ HD).
  - by destruct (run_resolved _ _ _ _ _ HD).
  - rewrite (run_unresolved dc c s Blocks _ HD) in HP; done.
Qed.

Lemma run_panics_witness :
  (∃ cl e, client cluster.cache_without_kubernetes = Some cl ∧
           KubernetesClient cl = (None, e)) ∧
  (run cluster.cache_without_kubernetes (call_List cluster.pod_key) new_state).2
    = span_of (call_List cluster.pod_key) new_state.
Proof.
  apply (run_panics_only_without_kubernetes cluster.cache_without_kubernetes
           (call_List cluster.pod_key) new_state).
  vm_compute. reflexivity.
Defined.

(** ** The access check, again *)

Lemma log_reviews_sent key gvr s :
  log_reviews (sent key gvr) s =
  log_review (checkVerb_sar key gvr "watch")
    (log_review (checkVerb_sar key gvr "list")
       (log_review (checkVerb_sar key gvr "get") s)).
Proof. done. Qed.

(** X5.  With a Kubernetes client at hand, the access check returns nil
    exactly when the endpoint allows get, list and watch; allowed or not,
    it sends the three reviews, in this order, and touches nothing else:
    a verb that is denied does not spare the later ones their review. *)
Theorem checkAccess_grants_iff client k8s e key gvr s :
  KubernetesClient client = (Some k8s, e) →
  ((checkAccess client key gvr s).1 = Ret tt ↔ grants k8s key gvr = true) ∧
  (checkAccess client key gvr s).2 = log_reviews (sent key gvr) s ∧
  reviews (checkAccess client key gvr s).2 =
    (reviews s ++ [checkVerb_sar key gvr "get"; checkVerb_sar key gvr "list";
                   checkVerb_sar key gvr "watch"])%list.
Proof.
  intros Hk. rewrite (checkAccess_run _ _ _ _ _ _ Hk). cbn zeta. unfold grants.
  split; [|split].
  - destruct (allowed k8s key gvr "get" && allowed k8s key gvr "list" &&
              allowed k8s key gvr "watch"); by split.
  - done.
  - cbn. by rewrite <- !app_assoc.
Qed.

Lemma checkAccess_grants_witness :
  let client := mkClient cluster.resource_of (Some (cluster.granting ["list"; "watch"]), None) in
  ((checkAccess client cluster.pod_key cluster.pods new_state).1 = Ret tt ↔
   grants (cluster.granting ["list"; "watch"]) cluster.pod_key cluster.pods = true) ∧
  (checkAccess client cluster.pod_key cluster.pods new_state).2 =
    log_reviews (sent cluster.pod_key cluster.pods) new_state ∧
  reviews (checkAccess client cluster.pod_key cluster.pods new_state).2 =
    ([] ++ [checkVerb_sar cluster.pod_key cluster.pods "get";
            checkVerb_sar cluster.pod_key cluster.pods "list";
            checkVerb_sar cluster.pod_key cluster.pods "watch"])%list.
Proof.
  intros client.
  apply (checkAccess_grants_iff client (cluster.granting ["list"; "watch"]) None
           cluster.pod_key cluster.pods new_state).
  reflexivity.
Defined.

(** X6.  The outcome of the loop over [mustHaveVerbs] does not depend on
    the order in which the runtime ranges over the map. *)
Theorem range_mustHaveVerbs_any_order (mustHaveVerbs : gmap string bool) entries :
  entries ≡ₚ map_to_list mustHaveVerbs →
  range_mustHaveVerbs entries mustHaveVerbs =
  range_mustHaveVerbs (map_to_list mustHaveVerbs) mustHaveVerbs ∧
  (range_mustHaveVerbs entries mustHaveVerbs = None ↔
   ∀ verb allowed, mustHaveVerbs !! verb = Some allowed → allowed = true).
Proof.
  intros HP. split; [by apply range_mustHaveVerbs_order|].
  rewrite range_mustHaveVerbs_forallb.
  rewrite (forallb_Permutation _ _ _ HP).
  destruct (forallb snd (map_to_list mustHaveVerbs)) eqn:HF.
  - split; [|done]. intros _ verb b Hl.
    rewrite forallb_forall in HF.
    apply elem_of_map_to_list in Hl. apply list_elem_of_In in Hl.
    by apply HF in Hl.
  - split; [done|]. intros Hall.
    assert (forallb snd (map_to_list mustHaveVerbs) = true) as HT; [|congruence].
    apply forallb_forall. intros [verb b] Hin. cbn.
    apply list_elem_of_In, elem_of_map_to_list in Hin. by apply Hall in Hin.
Qed.

Lemma range_mustHaveVerbs_any_order_witness :
  range_mustHaveVerbs [("get", true); ("list", true); ("watch", false)]
    {[ "get" := true; "list" := true; "watch" := false ]} =
  range_mustHaveVerbs (map_to_list {[ "get" := true; "list" := true; "watch" := false ]})
    {[ "get" := true; "list" := true; "watch" := false ]}.
Proof.
  refine (proj1 (range_mustHaveVerbs_any_order
            {[ "get" := true; "list" := true; "watch" := false ]}
            [("get", true); ("list", true); ("watch", false)] _)).
  vm_compute.
  exact (perm_trans (perm_skip ("get", true) (perm_swap ("watch", false) ("list", true) []))
           (perm_swap ("watch", false) ("get", true) [("list", true)])).
Defined.

(** ** Resolution and the key *)

Lemma range_verbs_ext (f f' : string → M bool) verbs m s :
  (∀ v s, f v s = f' v s) → range_verbs f verbs m s = range_verbs f' verbs m s.
Proof.
  intros Hf. revert m s. induction verbs as [|v rest IH]; intros m s; [done|].
  cbn. unfold mbind, M_bind. rewrite Hf.
  destruct (f' v s) as [[b|e| |] s1]; auto.
Qed.

Lemma checkAccess_key client key key' gvr s :
  checkAccess client key gvr s = checkAccess client key' gvr s.
Proof.
  unfold checkAccess. destruct (KubernetesClient client) as [[k8s|] e]; [|done].
  unfold mbind, M_bind.
  assert (∀ v s0, checkVerb k8s key gvr v s0 = checkVerb k8s key' gvr v s0) as Hext.
  { intros v s0. unfold checkVerb. by rewrite (checkVerb_sar_key key key'). }
  by rewrite (range_verbs_ext _ _ _ _ _ Hext).
Qed.

(** X8.  Resolving the informer depends on the key through its (group,
    version, kind) and nothing else: two keys of one type, whatever their
    namespaces, names and selectors, give the same outcome and the same
    state. *)
Theorem resolution_depends_on_type_only dc key key' s :
  Key_GroupVersionKind key = Key_GroupVersionKind key' →
  DynamicCache_currentInformer dc key s = DynamicCache_currentInformer dc key' s.
Proof.
  intros Hgvk. rewrite !resolve_unfold, <- Hgvk.
  assert (currentInformer key (client dc) (factory dc) (stopCh dc) s =
          currentInformer key' (client dc) (factory dc) (stopCh dc) s) as ->; [|done].
  unfold currentInformer. rewrite <- Hgvk.
  destruct (factory dc); [|done]. destruct (client dc) as [cl|]; [|done].
  destruct (Resource cl _) as [gvr|]; [|done].
  unfold mbind, M_bind, wrapping. by rewrite (checkAccess_key cl key key').
Qed.

Lemma resolution_depends_on_type_only_witness :
  let dc := cluster.cache_with (cluster.granting cluster.all_verbs) (Some 0%nat)
              (fun _ => inl cluster.nginx) None in
  DynamicCache_currentInformer dc (samples.pod_in "default" "nginx") new_state =
  DynamicCache_currentInformer dc (cluster.pod_key_selecting "redis") new_state.
Proof.
  intros dc.
  apply (resolution_depends_on_type_only dc (samples.pod_in "default" "nginx")
           (cluster.pod_key_selecting "redis") new_state).
  reflexivity.
Defined.

(** X7.  When the endpoint does not allow all three verbs, every operation
    fails with the access error, wrapped with the resource and then with
    the key, seen type or not; all it does is annotate its span and send
    the three reviews: no informer is built or started, nothing waits,
    reads or sleeps, no handler is added. *)
Theorem run_without_access dc c s f cl gvr k8s e :
  factory dc = Some f → client dc = Some cl →
  Resource cl (GroupKind_of (Key_GroupVersionKind (call_key c))) = inl gvr →
  KubernetesClient cl = (Some k8s, e) →
  grants k8s (call_key c) gvr = false →
  run dc c s =
  (Err (errors.Wrapf
          (errors.Wrap
             (errors.New (access_text (allowed k8s (call_key c) gvr "get")
                            (allowed k8s (call_key c) gvr "list")
                            (allowed k8s (call_key c) gvr "watch")))
             ("check access: " ++ gvr_Resource gvr))
          (retrieving_format c) [arg_key (call_key c)]),
   log_reviews (sent (call_key c) gvr) (span_of c s)).
Proof.
  intros Hf Hc HR Hk Hg.
  assert (DynamicCache_currentInformer dc (call_key c) (span_of c s) =
          (Err (errors.Wrap
                  (errors.New (access_text (allowed k8s (call_key c) gvr "get")
                                 (allowed k8s (call_key c) gvr "list")
                                 (allowed k8s (call_key c) gvr "watch")))
                  ("check access: " ++ gvr_Resource gvr)),
           log_reviews (sent (call_key c) gvr) (span_of c s))) as HD.
  { rewrite resolve_unfold, Hf, Hc.
    by rewrite (currentInformer_run _ _ _ _ _ _ _ _ HR Hk), Hg. }
  by rewrite (run_unresolved _ _ _ _ _ HD).
Qed.

Lemma run_without_access_witness :
  let dc := cluster.cache_with (cluster.granting ["get"]) (Some 0%nat)
              (fun _ => inl cluster.nginx) None in
  run dc (call_Watch cluster.pod_key "handler") new_state =
  (Err (errors.Wrapf
          (errors.Wrap (errors.New (access_text true false false)) "check access: pods")
          "retrieving informer for %s" [arg_key cluster.pod_key]),
   log_reviews (sent cluster.pod_key cluster.pods) new_state).
Proof.
  intros dc.
  apply (run_without_access dc (call_Watch cluster.pod_key "handler") new_state
           (mkFactory (cluster.informer_reading (Some 0%nat) (fun _ => inl cluster.nginx)))
           (mkClient cluster.resource_of (Some (cluster.granting ["get"]), None))
           cluster.pods (cluster.granting ["get"]) None); reflexivity.
Defined.

(** ** The seen set and the informers over a run *)

(** X9.  An operation changes the seen set in one way only: it adds the
    type of its own key, with true, after a wait for the sync (one wait,
    no more); otherwise the set is as it was, and a wait is then only ever
    one that does not return. *)
Theorem run_changes_seen_by_own_type dc c s :
  seenGVKs (run dc c s).2 = seenGVKs s ∧
    (syncWaits (run dc c s).2 = syncWaits s ∨ (run dc c s).1 = Blocks) ∨
  seenGVKs s !! Key_GroupVersionKind (call_key c) = None ∧
    seenGVKs (run dc c s).2 = <[Key_GroupVersionKind (call_key c) := true]> (seenGVKs s) ∧
    (∃ gvr, syncWaits (run dc c s).2 = (syncWaits s ++ [gvr])%list) ∧
    (run dc c s).1 ≠ Blocks ∧ (run dc c s).1 ≠ Panics.
Proof.
  pose proof (span_of_resolution c s) as HS.
  apply resolution_eq in HS as (HS1 & _ & _ & _ & HS5).
  pose proof (run_resolution dc c s) as HRR.
  apply resolution_eq in HRR as (HR1 & _ & _ & _ & HR5).
  pose proof (resolve_resolved dc (call_key c) (span_of c s)) as HR.
  pose proof (currentInformer_effect (call_key c) (client dc) (factory dc) (stopCh dc)
                (span_of c s)) as (HE1 & HE2 & _).
  destruct (DynamicCache_currentInformer dc (call_key c) (span_of c s)) as [o s1] eqn:HD.
  cbn in HR1, HR5. rewrite HR1, HR5.
  inversion HR as [o' s1' HC Hn| informer s1' HC Hs | informer s1' t HC Hs Ht
                  | informer s1' HC Hs Ht]; subst; rewrite HC in HE1, HE2;
    cbn in HE1, HE2 |- *.
  - left. rewrite HE1, HE2, HS1, HS5. by split; [|left].
  - left. rewrite HE1, HE2, HS1, HS5. by split; [|left].
  - right. rewrite HE1, HE2, HS1, HS5. rewrite HS1 in Hs.
    split; [done|]. split; [done|]. split; [eauto|].
    by destruct (run_resolved _ _ _ _ _ HD).
  - left. rewrite HE1, HS1. split; [done|]. right.
    by rewrite (run_unresolved dc c s Blocks _ HD).
Qed.

Lemma resolve_informers dc key s :
  informers (DynamicCache_currentInformer dc key s).2 =
    informers (currentInformer key (client dc) (factory dc) (stopCh dc) s).2 ∧
  startedInformers (DynamicCache_currentInformer dc key s).2 =
    startedInformers (currentInformer key (client dc) (factory dc) (stopCh dc) s).2.
Proof.
  rewrite resolve_unfold.
  destruct (currentInformer _ _ _ _ _) as [[informer|e| |] s1]; try done.
  cbn. destruct (seenGVKs s1 !! _); [done|]. by destruct (HasSynced informer).
Qed.

Lemma currentInformer_keeps_started key client factory stopCh s :
  started_all s → started_all (currentInformer key client factory stopCh s).2.
Proof.
  intros Hs.
  destruct (currentInformer key client factory stopCh s) as [o s1] eqn:HC.
  destruct o as [informer|e| |].
  - apply currentInformer_Ret in HC
      as (f & cl & gvr & k8s & e & _ & _ & _ & _ & _ & _ & ->).
    intros g. cbn. rewrite lookup_union_is_Some, lookup_fmap, fmap_is_Some.
    split; [by right|]. intros [Hst|Hin]; [|done].
    apply Hs in Hst. apply lookup_insert_is_Some'. by right.
  - destruct (currentInformer_not_Ret _ _ _ _ _ _ _ HC) as (Hi & Hst & _); [done|].
    intros g. cbn. by rewrite Hi, Hst.
  - destruct (currentInformer_not_Ret _ _ _ _ _ _ _ HC) as (Hi & Hst & _); [done|].
    intros g. cbn. by rewrite Hi, Hst.
  - destruct (currentInformer_not_Ret _ _ _ _ _ _ _ HC) as (Hi & Hst & _); [done|].
    intros g. cbn. by rewrite Hi, Hst.
Qed.

Lemma run_keeps_started dc c s : started_all s → started_all (run dc c s).2.
Proof.
  intros Hs.
  pose proof (run_resolution dc c s) as HR.
  apply resolution_eq in HR as (_ & HR2 & HR3 & _).
  pose proof (span_of_resolution c s) as HS.
  apply resolution_eq in HS as (_ & HS2 & HS3 & _).
  destruct (resolve_informers dc (call_key c) (span_of c s)) as [HI1 HI2].
  assert (started_all (span_of c s)) as Hspan.
  { intros g. by rewrite HS2, HS3. }
  pose proof (currentInformer_keeps_started (call_key c) (client dc) (factory dc)
                (stopCh dc) _ Hspan) as HK.
  intros g. rewrite HR2, HR3, HI1, HI2. apply HK.
Qed.

(** X12.  The informers the factory holds are the ones it has started, and
    every operation keeps it so: from a state where this holds, as the one
    of a new cache, it holds after any calls of [List], [Get] and
    [Watch]. *)
Theorem informers_are_started dc calls s :
  started_all s → started_all (run_all dc calls s).
Proof.
  revert s. induction calls as [|c calls IH]; intros s Hs; [done|].
  cbn. apply IH. by apply run_keeps_started.
Qed.

Lemma informers_are_started_witness :
  let dc := cluster.cache_with (cluster.granting cluster.all_verbs) (Some 0%nat)
              (fun _ => inl cluster.nginx) None in
  started_all (run_all dc [call_Get cluster.pod_key; call_List (mkKey "" "v1" "Gadget" "" None)]
                 new_state).
Proof.
  intros dc.
  apply (informers_are_started dc
           [call_Get cluster.pod_key; call_List (mkKey "" "v1" "Gadget" "" None)] new_state).
  intros g. vm_compute. split; intros [x Hx]; discriminate Hx.
Defined.

Section same_type.

Context (dc : DynamicCache) (f : DynamicSharedInformerFactory) (cl : ClientInterface)
        (k8s : kubernetes_Interface) (e : option error) (gvr : GroupVersionResource)
        (gvk : GroupVersionKind).
Context (Hf : factory dc = Some f) (Hc : client dc = Some cl)
        (Hk : KubernetesClient cl = (Some k8s, e))
        (HR : Resource cl (GroupKind_of gvk) = inl gvr).

Lemma run_first_touch c s t :
  Key_GroupVersionKind (call_key c) = gvk → grants k8s (call_key c) gvr = true →
  informers s !! gvr = None → seenGVKs s !! gvk = None →
  HasSynced (NewInformer f gvr) = Some t →
  resolution (run dc c s).2 =
  (<[gvk := true]> (seenGVKs s), <[gvr := NewInformer f gvr]> (informers s),
   startedInformers s ∪ ((fun _ => stopCh dc) <$> <[gvr := NewInformer f gvr]> (informers s)),
   (reviews s ++ sent (call_key c) gvr)%list,
   (syncWaits s ++ [informer_resource (NewInformer f gvr)])%list).
Proof.
  intros Hgvk Hg Hi Hs Ht.
  pose proof (span_of_resolution c s) as HS.
  apply resolution_eq in HS as (HS1 & HS2 & HS3 & HS4 & HS5).
  rewrite run_resolution, resolve_unfold, Hf, Hc.
  rewrite (currentInformer_run _ _ _ _ gvr k8s e); [|by rewrite Hgvk|done].
  rewrite Hg, HS2, Hi. cbn. rewrite Hgvk, HS1, Hs, Ht. unfold resolution. cbn.
  rewrite HS1, HS3, HS4, HS5, HS2. unfold sent. by rewrite <- !app_assoc.
Qed.

Lemma run_seen_type c s informer :
  Key_GroupVersionKind (call_key c) = gvk → grants k8s (call_key c) gvr = true →
  informers s !! gvr = Some informer → is_Some (seenGVKs s !! gvk) →
  resolution (run dc c s).2 =
  (seenGVKs s, informers s,
   startedInformers s ∪ ((fun _ => stopCh dc) <$> informers s),
   (reviews s ++ sent (call_key c) gvr)%list, syncWaits s).
Proof.
  intros Hgvk Hg Hi Hs.
  pose proof (span_of_resolution c s) as HS.
  apply resolution_eq in HS as (HS1 & HS2 & HS3 & HS4 & HS5).
  rewrite run_resolution.
  rewrite (resolve_seen dc (call_key c) (span_of c s) f cl gvr k8s e informer);
    try done; [|by rewrite Hgvk|by rewrite HS2|by rewrite Hgvk, HS1].
  unfold resolution. cbn. rewrite HS1, HS2, HS3, HS4, HS5.
  unfold sent. by rewrite <- !app_assoc.
Qed.

Lemma run_all_seen_type calls : ∀ s informer,
  Forall (fun c => Key_GroupVersionKind (call_key c) = gvk ∧
                   grants k8s (call_key c) gvr = true) calls →
  informers s !! gvr = Some informer → is_Some (seenGVKs s !! gvk) →
  seenGVKs (run_all dc calls s) = seenGVKs s ∧
  informers (run_all dc calls s) = informers s ∧
  syncWaits (run_all dc calls s) = syncWaits s ∧
  List.length (reviews (run_all dc calls s)) =
    (List.length (reviews s) + 3 * List.length calls)%nat.
Proof.
  induction calls as [|c calls IH]; intros s informer Hall Hi Hs.
  - cbn. repeat split; (done || lia).
  - apply Forall_cons in Hall as [[Hgvk Hg] Hall]. cbn [run_all fold_left].
    pose proof (run_seen_type c s informer Hgvk Hg Hi Hs) as HR1.
    apply (f_equal (fun r => (r.1.1.1.1, r.1.1.1.2, r.1.2, r.2))) in HR1.
    cbn in HR1. injection HR1 as H1 H2 H4 H5.
    destruct (IH (run dc c s).2 informer Hall) as (I1 & I2 & I3 & I4).
    { by rewrite H2. } { by rewrite H1. }
    fold (run_all dc calls (run dc c s).2).
    rewrite I1, I2, I3, I4, H1, H2, H4, H5.
    repeat split; try done. rewrite length_app. cbn. lia.
Qed.

End same_type.

(** X14.  Over any number of calls for one type on a cache that is granted
    the type and whose informer syncs, from a state that has neither seen
    the type nor an informer for it, there is one wait for the sync and
    one informer, and each call sends its three reviews. *)
Theorem one_wait_one_informer_per_type dc f cl k8s e gvr t c calls s :
  factory dc = Some f → client dc = Some cl →
  KubernetesClient cl = (Some k8s, e) →
  Resource cl (GroupKind_of (Key_GroupVersionKind (call_key c))) = inl gvr →
  HasSynced (NewInformer f gvr) = Some t →
  informers s !! gvr = None →
  seenGVKs s !! Key_GroupVersionKind (call_key c) = None →
  Forall (fun c' => Key_GroupVersionKind (call_key c') = Key_GroupVersionKind (call_key c) ∧
                    grants k8s (call_key c') gvr = true) (c :: calls) →
  syncWaits (run_all dc (c :: calls) s) =
    (syncWaits s ++ [informer_resource (NewInformer f gvr)])%list ∧
  informers (run_all dc (c :: calls) s) = <[gvr := NewInformer f gvr]> (informers s) ∧
  seenGVKs (run_all dc (c :: calls) s) =
    <[Key_GroupVersionKind (call_key c) := true]> (seenGVKs s) ∧
  List.length (reviews (run_all dc (c :: calls) s)) =
    (List.length (reviews s) + 3 * List.length (c :: calls))%nat.
Proof.
  intros Hf Hc Hk HR Ht Hi Hs Hall.
  apply Forall_cons in Hall as [[_ Hg] Hall].
  pose proof (run_first_touch dc f cl k8s e gvr _ Hf Hc Hk HR c s t eq_refl Hg Hi Hs Ht)
    as H1.
  apply (f_equal (fun r => (r.1.1.1.1, r.1.1.1.2, r.1.2, r.2))) in H1.
  cbn in H1. injection H1 as H1 H2 H4 H5.
  cbn [run_all fold_left]. fold (run_all dc calls (run dc c s).2).
  destruct (run_all_seen_type dc f cl k8s e gvr _ Hf Hc Hk HR calls (run dc c s).2
              (NewInformer f gvr) Hall) as (I1 & I2 & I3 & I4).
  { by rewrite H2, lookup_insert_eq. }
  { by rewrite H1, lookup_insert_eq. }
  rewrite I1, I2, I3, I4, H1, H2, H4, H5.
  repeat split; try done. rewrite length_app. cbn. lia.
Qed.

Lemma one_wait_one_informer_per_type_witness :
  let dc := cluster.cache_with (cluster.granting cluster.all_verbs) (Some 0%nat)
              (fun _ => inr cluster.absent) None in
  let calls := [call_List (samples.pod_in "" ""); call_Watch cluster.pod_key "handler";
                call_Get (cluster.pod_key_selecting "redis")] in
  syncWaits (run_all dc (call_Get cluster.pod_key :: calls) new_state) = [cluster.pods] ∧
  informers (run_all dc (call_Get cluster.pod_key :: calls) new_state) =
    {[ cluster.pods := cluster.informer_reading (Some 0%nat) (fun _ => inr cluster.absent)
                         cluster.pods ]} ∧
  seenGVKs (run_all dc (call_Get cluster.pod_key :: calls) new_state) =
    {[ mkGroupVersionKind "" "v1" "Pod" := true ]} ∧
  List.length (reviews (run_all dc (call_Get cluster.pod_key :: calls) new_state)) = 12%nat.
Proof.
  intros dc calls.
  apply (one_wait_one_informer_per_type dc
           (mkFactory (cluster.informer_reading (Some 0%nat) (fun _ => inr cluster.absent)))
           (mkClient cluster.resource_of (Some (cluster.granting cluster.all_verbs), None))
           (cluster.granting cluster.all_verbs) None cluster.pods 0%nat
           (call_Get cluster.pod_key) calls new_state); try reflexivity.
  repeat constructor.
Defined.

(** X13.  The first call that gets the informer of a resource the factory
    has none for starts it with the stop channel of the cache, and the
    informer is the one the factory builds for the resource. *)
Theorem first_touch_starts_with_stopCh dc c s r cl gvr :
  started_all s → client dc = Some cl →
  Resource cl (GroupKind_of (Key_GroupVersionKind (call_key c))) = inl gvr →
  informers s !! gvr = None →
  (run dc c s).1 = Ret r →
  startedInformers (run dc c s).2 !! gvr = Some (stopCh dc) ∧
  ∃ f, factory dc = Some f ∧ informers (run dc c s).2 !! gvr = Some (NewInformer f gvr).
Proof.
  intros Hst Hc HR Hi Hret.
  apply run_Ret in Hret as [informer Hret].
  pose proof (run_resolution dc c s) as HRR.
  apply resolution_eq in HRR as (_ & HR2 & HR3 & _).
  pose proof (span_of_resolution c s) as HS.
  apply resolution_eq in HS as (_ & HS2 & HS3 & _).
  destruct (resolve_informers dc (call_key c) (span_of c s)) as [HI1 HI2].
  rewrite HR2, HR3, HI1, HI2.
  revert Hret. rewrite resolve_unfold.
  destruct (currentInformer _ _ _ _ _) as [[informer0|e0| |] s1] eqn:HC; try done.
  intros _.
  apply currentInformer_Ret in HC
    as (f & cl' & gvr' & k8s & e & Hf & Hc' & HR' & _ & _ & Hinf & ->).
  rewrite Hc in Hc'. injection Hc' as <-. rewrite HR in HR'. injection HR' as <-.
  rewrite HS2, Hi in Hinf. cbn in Hinf. subst informer0. cbn.
  rewrite HS2, HS3, lookup_insert_eq. split; [|by exists f].
  assert (startedInformers s !! gvr = None) as Hn.
  { apply eq_None_not_Some. intros Hsome. apply Hst in Hsome.
    rewrite Hi in Hsome. by destruct Hsome. }
  rewrite lookup_union_r by done. by rewrite lookup_fmap, lookup_insert_eq.
Qed.

Lemma first_touch_starts_with_stopCh_witness :
  let dc := cluster.cache_with (cluster.granting cluster.all_verbs) (Some 0%nat)
              (fun _ => inl cluster.nginx) (Some 7%nat) in
  startedInformers (run dc (call_Watch cluster.pod_key "handler") new_state).2
    !! cluster.pods = Some (Some 7%nat) ∧
  ∃ f, factory dc = Some f ∧
       informers (run dc (call_Watch cluster.pod_key "handler") new_state).2 !! cluster.pods
         = Some (NewInformer f cluster.pods).
Proof.
  intros dc.
  apply (first_touch_starts_with_stopCh dc (call_Watch cluster.pod_key "handler") new_state
           watching
           (mkClient cluster.resource_of (Some (cluster.granting cluster.all_verbs), None))
           cluster.pods).
  - intros g. vm_compute. split; intros [x Hx]; discriminate Hx.
  - reflexivity.
  - reflexivity.
  - reflexivity.
  - vm_compute. reflexivity.
Defined.

(** ** [List] *)

Lemma List_run dc key s informer s1 :
  DynamicCache_currentInformer dc key (List_span key s) = (Ret informer, s1) →
  List dc key s =
  match lister_List (lister_for informer key) (List_selector key) (cacheReads s1) with
  | inr e => (Err (errors.Wrapf e "listing %v" [arg_key key]), log_cacheRead s1)
  | inl objects => List_convert objects (log_cacheRead s1)
  end.
Proof.
  intros HR. unfold List, mbind, M_bind, wrapping, modify, gets. cbn. rewrite HR. cbn.
  unfold List_selector. by destruct (lister_List _ _ _).
Qed.

Lemma List_convert_Ret objects s us :
  (List_convert objects s).1 = Ret us ↔
  Forall2 (fun o u => ToUnstructured o = inl (Object u)) objects us.
Proof.
  revert us. induction objects as [|o rest IH]; intros us; cbn.
  - split.
    + intros [= <-]. constructor.
    + intros HF. by inversion HF.
  - destruct (ToUnstructured o) as [u|e] eqn:Hu.
    + unfold mbind, M_bind.
      destruct (List_convert rest s) as [[us'|e'| |] s'] eqn:HL; cbn in IH |- *.
      * split.
        -- intros [= <-]. constructor; [done|]. by apply IH.
        -- intros HF. inversion HF as [|o' [u'] rest' us'' Ho Hrest]; subst.
           cbn in Ho. rewrite Hu in Ho. injection Ho as ->.
           apply IH in Hrest. by injection Hrest as ->.
      * split; [done|]. intros HF.
        inversion HF as [|o' u' rest' us'' Ho Hrest]; subst. by apply IH in Hrest.
      * split; [done|]. intros HF.
        inversion HF as [|o' u' rest' us'' Ho Hrest]; subst. by apply IH in Hrest.
      * split; [done|]. intros HF.
        inversion HF as [|o' u' rest' us'' Ho Hrest]; subst. by apply IH in Hrest.
    + split; [done|]. intros HF. inversion HF; congruence.
Qed.

Lemma List_convert_Err pre o post e s :
  Forall (fun o => ∃ u, ToUnstructured o = inl u) pre →
  ToUnstructured o = inr e →
  (List_convert (pre ++ o :: post)%list s).1 =
  Err (errors.Wrapf e "converting %T to unstructured" [arg_type (go_type o)]).
Proof.
  intros Hpre He. induction Hpre as [|o' pre [u Hu] _ IH]; cbn.
  - by rewrite He.
  - rewrite Hu. unfold mbind, M_bind.
    destruct (List_convert (pre ++ o :: post)%list s) as [[] ?]; cbn in *; done.
Qed.

(** X15.  [List] returns one document for each object the lister answered
    with, in the order of the lister: it returns a list exactly when every
    object converts, and the list is then the conversions, the empty list
    for no object. *)
Theorem List_returns_the_conversions dc key s informer s1 objects us :
  DynamicCache_currentInformer dc key (List_span key s) = (Ret informer, s1) →
  lister_List (lister_for informer key) (List_selector key) (cacheReads s1) = inl objects →
  (List dc key s).1 = Ret us ↔
  Forall2 (fun o u => ToUnstructured o = inl (Object u)) objects us.
Proof.
  intros HR HL. rewrite (List_run _ _ _ _ _ HR), HL. apply List_convert_Ret.
Qed.

Lemma List_returns_the_conversions_witness :
  let dc := cluster.cache_with (cluster.granting cluster.all_verbs) (Some 0%nat)
              (fun _ => inl cluster.nginx) None in
  (List dc cluster.pod_key new_state).1 =
    Ret [mkUnstructured [("kind", "Pod"); ("name", "nginx")]] ↔
  Forall2 (fun o u => ToUnstructured o = inl (Object u)) [cluster.nginx]
    [mkUnstructured [("kind", "Pod"); ("name", "nginx")]].
Proof.
  intros dc.
  apply (List_returns_the_conversions dc cluster.pod_key new_state
           (cluster.informer_reading (Some 0%nat) (fun _ => inl cluster.nginx) cluster.pods)
           (DynamicCache_currentInformer dc cluster.pod_key
              (List_span cluster.pod_key new_state)).2
           [cluster.nginx]).
  - vm_compute. reflexivity.
  - reflexivity.
Defined.

(** X16.  The first object that does not convert ends [List] with the
    error of the converter, wrapped with the type of the object; the
    objects converted before it are not returned. *)
Theorem List_fails_at_first_unconvertible dc key s informer s1 pre o post e :
  DynamicCache_currentInformer dc key (List_span key s) = (Ret informer, s1) →
  lister_List (lister_for informer key) (List_selector key) (cacheReads s1)
    = inl (pre ++ o :: post)%list →
  Forall (fun o => ∃ u, ToUnstructured o = inl u) pre →
  ToUnstructured o = inr e →
  (List dc key s).1 =
  Err (errors.Wrapf e "converting %T to unstructured" [arg_type (go_type o)]).
Proof.
  intros HR HL Hpre He. rewrite (List_run _ _ _ _ _ HR), HL.
  by apply List_convert_Err.
Qed.

Lemma List_fails_at_first_unconvertible_witness :
  let informer (gvr : GroupVersionResource) :=
    mkGenericInformer gvr (Some 0%nat) (fun _ _ _ => inl cluster.nginx)
      (fun _ _ _ => inl [cluster.nginx; samples.unconvertible; cluster.nginx]) in
  let dc := mkDynamicCache (Some (mkFactory informer))
              (Some (mkClient cluster.resource_of
                       (Some (cluster.granting cluster.all_verbs), None))) None in
  (List dc cluster.pod_key new_state).1 =
  Err (errors.Wrapf (errors.New "unsupported type") "converting %T to unstructured"
         [arg_type "*v1.Pod"]).
Proof.
  intros informer dc.
  apply (List_fails_at_first_unconvertible dc cluster.pod_key new_state
           (informer cluster.pods)
           (DynamicCache_currentInformer dc cluster.pod_key
              (List_span cluster.pod_key new_state)).2
           [cluster.nginx] samples.unconvertible [cluster.nginx]
           (errors.New "unsupported type")).
  - vm_compute. reflexivity.
  - reflexivity.
  - repeat constructor. by eexists.
  - reflexivity.
Defined.

(** X17.  A [List] that gets its informer reads the cache once and never
    sleeps, whatever the lister answers; an error of the lister, not found
    or any other, is returned at once, wrapped with the key: [List] does
    not retry. *)
Theorem List_reads_once dc key s informer s1 :
  DynamicCache_currentInformer dc key (List_span key s) = (Ret informer, s1) →
  cacheReads (List dc key s).2 = S (cacheReads s) ∧
  slept (List dc key s).2 = slept s ∧
  ∀ e, lister_List (lister_for informer key) (List_selector key) (cacheReads s) = inr e →
       (List dc key s).1 = Err (errors.Wrapf e "listing %v" [arg_key key]).
Proof.
  intros HR.
  pose proof (resolve_frame dc key (List_span key s)) as (HC & HS & _).
  rewrite HR in HC, HS. cbn in HC, HS.
  rewrite (List_run _ _ _ _ _ HR), HC.
  destruct (lister_List _ _ _) as [objects|e0].
  - rewrite List_convert_state. cbn. by rewrite HC, HS.
  - cbn. rewrite HC, HS. repeat split; try done. by intros e [= ->].
Qed.

Lemma List_reads_once_witness :
  let dc := cluster.cache_with (cluster.granting cluster.all_verbs) (Some 0%nat)
              (fun _ => inr cluster.absent) None in
  cacheReads (List dc cluster.pod_key new_state).2 = 1%nat ∧
  slept (List dc cluster.pod_key new_state).2 = [] ∧
  ∀ e, lister_List
         (lister_for (cluster.informer_reading (Some 0%nat) (fun _ => inr cluster.absent)
                        cluster.pods) cluster.pod_key)
         (List_selector cluster.pod_key) 0 = inr e →
       (List dc cluster.pod_key new_state).1 =
         Err (errors.Wrapf e "listing %v" [arg_key cluster.pod_key]).
Proof.
  intros dc.
  apply (List_reads_once dc cluster.pod_key new_state
           (cluster.informer_reading (Some 0%nat) (fun _ => inr cluster.absent) cluster.pods)
           (DynamicCache_currentInformer dc cluster.pod_key
              (List_span cluster.pod_key new_state)).2).
  vm_compute. reflexivity.
Defined.

(** ** [Watch] and the handlers *)

(** X22.  Only a [Watch] that gets its informer adds a handler, and it adds
    the one it was given, once, on that informer; [List], [Get] and a
    [Watch] that fails add none.  [Watch] neither reads the cache nor
    sleeps, and returns nil whenever it gets its informer. *)
Theorem handlers_added_by_Watch_only dc c s :
  (∃ key handler informer,
     c = call_Watch key handler ∧
     (DynamicCache_currentInformer dc key s).1 = Ret informer ∧
     (run dc c s).1 = Ret watching ∧
     handlers (run dc c s).2 = (handlers s ++ [(informer_resource informer, handler)])%list ∧
     cacheReads (run dc c s).2 = cacheReads s ∧ slept (run dc c s).2 = slept s) ∨
  (handlers (run dc c s).2 = handlers s ∧
   ∀ key handler, c = call_Watch key handler →
     (run dc c s).1 ≠ Ret watching ∧
     cacheReads (run dc c s).2 = cacheReads s ∧ slept (run dc c s).2 = slept s).
Proof.
  destruct c as [key|key|key handler].
  - right. split; [|done]. cbn.
    pose proof (resolve_frame dc key (List_span key s)) as (_ & _ & _ & HH).
    destruct (DynamicCache_currentInformer dc key (List_span key s))
      as [[informer|e| |] s1] eqn:HR; cbn in HH.
    2-4: unfold List, mbind, M_bind, wrapping, modify; cbn; by rewrite HR.
    unfold mbind, M_bind. rewrite (List_run _ _ _ _ _ HR).
    destruct (lister_List _ _ _) as [objects|e0]; [|done].
    pose proof (List_convert_state objects (log_cacheRead s1)) as HS.
    destruct (List_convert objects (log_cacheRead s1)) as [[] s2]; cbn in *; by subst.
  - right. split; [|done]. cbn.
    pose proof (resolve_frame dc key (Get_span key s)) as (_ & _ & _ & HH).
    destruct (DynamicCache_currentInformer dc key (Get_span key s))
      as [[informer|e| |] s1] eqn:HR; cbn in HH.
    2-4: unfold Get, mbind, M_bind, wrapping, modify; cbn; by rewrite HR.
    unfold mbind, M_bind. rewrite (Get_run _ _ _ _ _ HR).
    destruct (Get_fetch_bounds (lister_for informer key) key s1)
      as (k & [retryErr vars] & s2 & -> & _ & _ & _ & H3 & _).
    destruct retryErr as [e|].
    + destruct (err vars); cbn; by rewrite H3.
    + pose proof (Get_verify_state key (object vars) s2) as HS.
      destruct (Get_verify key (object vars) s2) as [[] s3]; cbn in *; subst;
        by rewrite H3.
  - pose proof (resolve_frame dc key s) as (HC & HS & _ & HH).
    cbn. unfold Watch, mbind, M_bind, wrapping, modify. cbn.
    destruct (DynamicCache_currentInformer dc key s) as [[informer|e| |] s1] eqn:HR;
      cbn in *.
    + left. exists key, handler, informer. by rewrite HR, HC, HS, HH.
    + right. split; [done|]. by intros ? ? [= <- <-].
    + right. split; [done|]. by intros ? ? [= <- <-].
    + right. split; [done|]. by intros ? ? [= <- <-].
Qed.

(** ** [Get] and the object it found *)





(** ** Failing before anything is sent *)

(** X3.  On a cache without a factory, or with a factory and without a
    client, every operation fails with the error that names what is nil,
    the factory first, wrapped with the key; it annotates its span and
    does nothing else. *)
Theorem run_without_factory_or_client dc c s :
  factory dc = None ∨ client dc = None →
  run dc c s =
  (Err (errors.Wrapf
          (errors.New match factory dc with
                      | None => "dynamic shared informer factory is nil"
                      | Some _ => "cluster client is nil"
                      end)
          (retrieving_format c) [arg_key (call_key c)]),
   span_of c s).
Proof.
  intros Hnil.
  apply (run_unresolved dc c s (Err _)); [|done].
  rewrite resolve_unfold. unfold currentInformer.
  destruct (factory dc) as [f|]; [|done].
  destruct Hnil as [|Hc]; [done|]. by rewrite Hc.
Qed.

Lemma run_without_factory_or_client_witness :
  run (mkDynamicCache None None None) (call_Get cluster.pod_key) new_state =
  (Err (errors.Wrapf (errors.New "dynamic shared informer factory is nil")
          "retrieving informer for %v" [arg_key cluster.pod_key]),
   Get_span cluster.pod_key new_state).
Proof.
  apply (run_without_factory_or_client (mkDynamicCache None None None)
           (call_Get cluster.pod_key) new_state).
  left. reflexivity.
Defined.

(** X4.  When the client cannot name the resource of the kind of the key,
    every operation fails with the error of the client, wrapped as "client
    resource" and then with the key; no review is sent and no informer
    built. *)
Theorem run_unknown_kind dc c s f cl resource_error :
  factory dc = Some f → client dc = Some cl →
  Resource cl (GroupKind_of (Key_GroupVersionKind (call_key c))) = inr resource_error →
  run dc c s =
  (Err (errors.Wrapf (errors.Wrap resource_error "client resource")
          (retrieving_format c) [arg_key (call_key c)]),
   span_of c s).
Proof.
  intros Hf Hc HR.
  apply (run_unresolved dc c s (Err _)); [|done].
  rewrite resolve_unfold, Hf, Hc. unfold currentInformer. by rewrite HR.
Qed.

Lemma run_unknown_kind_witness :
  let dc := cluster.cache_with (cluster.granting cluster.all_verbs) (Some 0%nat)
              (fun _ => inl cluster.nginx) None in
  let key := mkKey "" "v1" "Gadget" "" None in
  run dc (call_Watch key "handler") new_state =
  (Err (errors.Wrapf (errors.Wrap (errors.New "no matches for kind") "client resource")
          "retrieving informer for %s" [arg_key key]),
   new_state).
Proof.
  intros dc key.
  apply (run_unknown_kind dc (call_Watch key "handler") new_state
           (mkFactory (cluster.informer_reading (Some 0%nat) (fun _ => inl cluster.nginx)))
           (mkClient cluster.resource_of (Some (cluster.granting cluster.all_verbs), None))
           (errors.New "no matches for kind")); reflexivity.
Defined.

(** ** Building the cache *)

Section new_cache.

Context {dynamic_Interface : Type}.
Context (NewDynamicSharedInformerFactory :
           option dynamic_Interface → Duration → DynamicSharedInformerFactory).

Lemma NewDynamicCache_no_options client stopCh :
  NewDynamicCache NewDynamicSharedInformerFactory client stopCh [] =
  match client with
  | None => Panics
  | Some cl =>
      match DynamicClient cl with
      | (_, Some err) =>
          Err (errors.Wrap err "initialize dynamic shared informer factory")
      | (d, None) =>
          Ret (mkDynamicCache_struct
                 (Some (initDynamicSharedInformerFactory NewDynamicSharedInformerFactory))
                 (Some (NewDynamicSharedInformerFactory d defaultInformerResync))
                 (Some cl) stopCh ∅)
      end
  end.
Proof.
  unfold NewDynamicCache. cbn [fold_left c_initFactoryFunc].
  unfold initDynamicSharedInformerFactory.
  destruct client as [cl|]; [|done]. by destruct (DynamicClient cl) as [d [e|]].
Qed.

(** X1.  Without options, [NewDynamicCache] panics on a nil client, fails
    exactly when [DynamicClient] does, with that error wrapped once, and
    otherwise returns a cache with the client and the stop channel it was
    given, a factory over the dynamic client of the client with a resync
    of 180 seconds, and no type seen; it never blocks. *)
Theorem NewDynamicCache_without_options client stopCh :
  (NewDynamicCache NewDynamicSharedInformerFactory client stopCh [] = Panics ↔
   client = None) ∧
  (∀ err,
     NewDynamicCache NewDynamicSharedInformerFactory client stopCh [] = Err err ↔
     ∃ cl d dynamic_error,
       client = Some cl ∧ DynamicClient cl = (d, Some dynamic_error) ∧
       err = errors.Wrap dynamic_error "initialize dynamic shared informer factory") ∧
  (∀ c,
     NewDynamicCache NewDynamicSharedInformerFactory client stopCh [] = Ret c ↔
     ∃ cl d,
       client = Some cl ∧ DynamicClient cl = (d, None) ∧
       c = mkDynamicCache_struct
             (Some (initDynamicSharedInformerFactory NewDynamicSharedInformerFactory))
             (Some (NewDynamicSharedInformerFactory d (time_Second * 180)))
             (Some cl) stopCh ∅) ∧
  NewDynamicCache NewDynamicSharedInformerFactory client stopCh [] ≠ Blocks.
Proof.
  rewrite NewDynamicCache_no_options.
  destruct client as [cl|].
  - destruct (DynamicClient cl) as [d [e|]] eqn:Hd.
    + split; [done|]. split; [|split; [|done]].
      * intros err. split.
        -- intros [= <-]. by exists cl, d, e.
        -- intros (cl' & d' & e' & [= <-] & Hd' & ->).
           rewrite Hd in Hd'. by injection Hd' as <- <-.
      * intros c. split; [done|].
        intros (cl' & d' & [= <-] & Hd' & _). by rewrite Hd in Hd'.
    + split; [done|]. split; [|split; [|done]].
      * intros err. split; [done|].
        intros (cl' & d' & e' & [= <-] & Hd' & _). by rewrite Hd in Hd'.
      * intros c. split.
        -- intros [= <-]. by exists cl, d.
        -- intros (cl' & d' & [= <-] & Hd' & ->).
           rewrite Hd in Hd'. by injection Hd' as <-.
  - split; [done|]. split; [|split; [|done]].
    + intros err. split; [done|]. by intros (? & ? & ? & ? & _).
    + intros c. split; [done|]. by intros (? & ? & ? & _).
Qed.

(** X2.  On a cache built by [NewDynamicCache] without options, the first
    operation that returns leaves the factory, which was built over the
    dynamic client of the client, with one informer, the one of the
    resource of the key, started with the stop channel given to
    [NewDynamicCache]; the type of the key, and it alone, is seen, after
    one wait. *)
Theorem new_cache_first_touch client stopCh c call r cl gvr :
  NewDynamicCache NewDynamicSharedInformerFactory client stopCh [] = Ret c →
  client = Some cl →
  Resource (operations cl) (GroupKind_of (Key_GroupVersionKind (call_key call))) = inl gvr →
  (run (cache_of c) call (state_of c)).1 = Ret r →
  ∃ d informer,
    DynamicClient cl = (d, None) ∧
    informer = NewInformer (NewDynamicSharedInformerFactory d defaultInformerResync) gvr ∧
    informers (run (cache_of c) call (state_of c)).2 = {[ gvr := informer ]} ∧
    startedInformers (run (cache_of c) call (state_of c)).2 = {[ gvr := stopCh ]} ∧
    seenGVKs (run (cache_of c) call (state_of c)).2
      = {[ Key_GroupVersionKind (call_key call) := true ]} ∧
    syncWaits (run (cache_of c) call (state_of c)).2 = [informer_resource informer].
Proof.
  intros HN -> HR Hret.
  rewrite NewDynamicCache_no_options in HN.
  destruct (DynamicClient cl) as [d [dynamic_error|]] eqn:Hd; [done|].
  injection HN as <-.
  exists d. eexists. split; [done|]. split; [reflexivity|].
  set (dc := cache_of _) in *. set (s := state_of _) in *.
  set (f := NewDynamicSharedInformerFactory d defaultInformerResync).
  assert (Hf : factory dc = Some f) by done.
  assert (Hc : client dc = Some (operations cl)) by done.
  pose proof (run_Ret_resolved dc call s r Hret)
    as (f' & cl' & gvr' & k8s & e & informer & Hf' & Hc' & HR' & Hk & Hg & _).
  rewrite Hf in Hf'. injection Hf' as <-. rewrite Hc in Hc'. injection Hc' as <-.
  rewrite HR in HR'. injection HR' as <-.
  destruct (HasSynced (NewInformer f gvr)) as [t|] eqn:Ht.
  - pose proof (run_first_touch dc f (operations cl) k8s e gvr _ Hf Hc Hk HR call s t
                  eq_refl Hg eq_refl eq_refl Ht) as H1.
    unfold resolution in H1. injection H1 as H1 H2 H3 _ H5.
    rewrite H1, H2, H3, H5. cbn. repeat split; try done.
    rewrite (left_id_L ∅ (∪)). by rewrite insert_empty, map_fmap_singleton.
  - apply run_Ret in Hret as [informer' Hret]. revert Hret.
    pose proof (span_of_resolution call s) as HS.
    apply resolution_eq in HS as (HS1 & HS2 & _).
    rewrite resolve_unfold, Hf, Hc.
    rewrite (currentInformer_run _ _ _ _ gvr k8s e); [|done|done].
    rewrite Hg, HS2. cbn. rewrite !lookup_empty. cbn.
    rewrite HS1. subst s. cbn. by rewrite lookup_empty, Ht.
Qed.

End new_cache.

Lemma new_cache_first_touch_witness :
  let NewF := samples.factory_over (Some 3%nat) (fun _ => inl cluster.nginx) in
  let cl := samples.client_with (cluster.granting cluster.all_verbs) (Some tt, None) in
  let c := mkDynamicCache_struct (Some (initDynamicSharedInformerFactory NewF))
             (Some (NewF (Some tt) defaultInformerResync)) (Some cl) (Some 9%nat) ∅ in
  let call := call_Get cluster.pod_key in
  ∃ d informer,
    DynamicClient cl = (d, None) ∧
    informer = NewInformer (NewF d defaultInformerResync) cluster.pods ∧
    informers (run (cache_of c) call (state_of c)).2 = {[ cluster.pods := informer ]} ∧
    startedInformers (run (cache_of c) call (state_of c)).2
      = {[ cluster.pods := Some 9%nat ]} ∧
    seenGVKs (run (cache_of c) call (state_of c)).2
      = {[ Key_GroupVersionKind (call_key call) := true ]} ∧
    syncWaits (run (cache_of c) call (state_of c)).2 = [informer_resource informer].
Proof.
  intros NewF cl c call.
  apply (new_cache_first_touch NewF (Some cl) (Some 9%nat) c call
           (got (Some (mkUnstructured [("kind", "Pod"); ("name", "nginx")]))) cl
           cluster.pods).
  - reflexivity.
  - reflexivity.
  - reflexivity.
  - vm_compute. reflexivity.
Defined.
